(** * Clinical-trial adverse-event query agent (question_4_genai/GenAI.py)

    A shallow embedding of the question interpreter
    ([ClinicalTrialDataAgent.parse_question], with its collaborator call
    [_call_llm] and its deterministic fallback [_mock_llm]) and of the
    query executor ([execute]), followed by the properties the
    specification states about them.

    Conventions of the embedding.
    - A Python [str] is a [string]; a character is the code point of the
      same number, so the model covers text whose code points are below
      256.  Case mapping, [\w] and whitespace follow Python on that range.
    - A pandas column holds text or a missing value (NaN), which is what
      [read_csv] yields for the five schema columns.
    - A Python [set] is a [gset string]: the code only takes sizes of
      intersections and tests membership.
    - Exceptions are values of [exn], threaded by the [result] monad. *)

From Stdlib Require Import ZArith Lia Ascii String DecimalString.
From stdpp Require Import base list strings gmap sorting.

Open Scope string_scope.

(* Let [simpl] compute the append of a string that starts with a character. *)
Arguments String.append !s1 s2 : simpl nomatch.

(** ** Text primitives: [str] methods and the regular expressions used *)

Module Text.

Definition code (c : ascii) : N := N_of_ascii c.

Definition between (lo hi : N) (c : ascii) : bool :=
  ((lo <=? code c) && (code c <=? hi))%N.

Definition is_digit (c : ascii) : bool := between 48 57 c.
Definition is_upper_az (c : ascii) : bool := between 65 90 c.
Definition is_lower_az (c : ascii) : bool := between 97 122 c.

(** The class [[a-z0-9]]. *)
Definition is_lower_alnum (c : ascii) : bool := is_lower_az c || is_digit c.

(** The class [[A-Za-z0-9]]. *)
Definition is_ascii_alnum (c : ascii) : bool :=
  is_upper_az c || is_lower_az c || is_digit c.

(** Cased upper-case letters below 256: A-Z and the accented capitals
    0xC0-0xDE without the multiplication sign 0xD7. *)
Definition is_upper (c : ascii) : bool :=
  is_upper_az c || (between 192 222 c && negb (code c =? 215)%N).

(** [str.lower] on one character: upper-case letters move up by 32. *)
Definition lower_char (c : ascii) : ascii :=
  if is_upper c then ascii_of_N (code c + 32) else c.

(** [s.lower()]. *)
Fixpoint lower (s : string) : string :=
  match s with
  | "" => ""
  | String c t => String (lower_char c) (lower t)
  end.

(** [\w] for a [str] pattern: alphanumeric characters and the underscore.
    Below 256 the alphanumerics are the ASCII ones, the ordinal
    indicators, the micro sign, superscript digits, vulgar fractions and
    the accented letters. *)
Definition is_word (c : ascii) : bool :=
  is_ascii_alnum c || (code c =? 95)%N
  || (code c =? 170)%N || (code c =? 178)%N || (code c =? 179)%N
  || (code c =? 181)%N || (code c =? 185)%N || (code c =? 186)%N
  || between 188 190 c
  || between 192 214 c || between 216 246 c || between 248 255 c.

(** Whitespace for [str.strip()]: tab to carriage return, the four
    separators 0x1C-0x1F, the space, NEL and the no-break space. *)
Definition is_space (c : ascii) : bool :=
  between 9 13 c || between 28 32 c || (code c =? 133)%N || (code c =? 160)%N.

Fixpoint lstrip (s : string) : string :=
  match s with
  | "" => ""
  | String c t => if is_space c then lstrip t else s
  end.

Fixpoint rstrip (s : string) : string :=
  match s with
  | "" => ""
  | String c t =>
      match rstrip t with
      | "" => if is_space c then "" else String c ""
      | r => String c r
      end
  end.

(** [s.strip()]. *)
Definition strip (s : string) : string := rstrip (lstrip s).

(** Every character of [s] satisfies [p]. *)
Fixpoint all_chars (p : ascii -> bool) (s : string) : bool :=
  match s with
  | "" => true
  | String c t => p c && all_chars p t
  end.

(** [sub in s]: some suffix of [s] starts with [sub]. *)
Fixpoint contains (sub s : string) : bool :=
  String.prefix sub s ||
  match s with
  | "" => false
  | String _ t => contains sub t
  end.

(** [re.findall("[...]+", s)] for a character class [p]: the maximal runs
    of characters of the class, left to right. *)
Fixpoint findall (p : ascii -> bool) (s : string) : list string :=
  match s with
  | "" => []
  | String c t =>
      if p c then
        match t with
        | "" => [String c ""]
        | String d _ =>
            if p d then
              match findall p t with
              | run :: runs => String c run :: runs
              | [] => [String c ""]
              end
            else String c "" :: findall p t
        end
      else findall p t
  end.

(** [sep.join(l)]. *)
Fixpoint join (sep : string) (l : list string) : string :=
  match l with
  | [] => ""
  | [x] => x
  | x :: t => x ++ sep ++ join sep t
  end.

(** [l[-n:]] for a positive [n]. *)
Definition last_n {A} (n : nat) (l : list A) : list A :=
  drop (length l - n) l.

(** *** [re.search(r"\{.*\}", raw, flags=re.S)]

    The search tries the start positions from the left; at an opening
    brace the greedy [.*] (which crosses newlines under [re.S]) runs to
    the end of the text and backs up to the last closing brace. *)

Definition lbrace : ascii := "{"%char.
Definition rbrace : ascii := "}"%char.

(** Longest prefix of [s] that ends with a closing brace. *)
Fixpoint upto_last_rbrace (s : string) : option string :=
  match s with
  | "" => None
  | String c t =>
      match upto_last_rbrace t with
      | Some p => Some (String c p)
      | None => if Ascii.eqb c rbrace then Some (String c "") else None
      end
  end.

(** [m.group(0)] of the search, or [None] when nothing matches. *)
Fixpoint search_braces (raw : string) : option string :=
  match raw with
  | "" => None
  | String c t =>
      if Ascii.eqb c lbrace then
        match upto_last_rbrace t with
        | Some p => Some (String c p)
        | None => search_braces t
        end
      else search_braces t
  end.

(** *** The search for a double-quoted run in the question

    The pattern is a double quote, a group of one or more characters
    other than the double quote, and a double quote. *)

Definition dquote : ascii := ascii_of_nat 34.

(** The greedy run of characters other than the quote, and what follows
    it. *)
Fixpoint span_unquoted (s : string) : string * string :=
  match s with
  | "" => ("", "")
  | String c t =>
      if Ascii.eqb c dquote then ("", s)
      else let '(run, rest) := span_unquoted t in (String c run, rest)
  end.

(** [m.group(1)] of the leftmost match: a quote, a non-empty run without
    quotes, a quote. *)
Fixpoint search_quoted (s : string) : option string :=
  match s with
  | "" => None
  | String c t =>
      if Ascii.eqb c dquote then
        match span_unquoted t with
        | (String a run, String _ _) => Some (String a run)
        | _ => search_quoted t
        end
      else search_quoted t
  end.

(** *** [re.search(r"\b(usubjid|subject id)\b", question, re.I)] *)

(** Match the literal [w] case-insensitively at the start of [s] and
    return the rest of [s]. *)
Fixpoint match_literal_ci (w s : string) : option string :=
  match w, s with
  | "", _ => Some s
  | String _ _, "" => None
  | String a w', String b s' =>
      if Ascii.eqb (lower_char a) (lower_char b) then match_literal_ci w' s'
      else None
  end.

(** [\b] after a match that ends in a word character. *)
Definition at_word_end (rest : string) : bool :=
  match rest with
  | "" => true
  | String c _ => negb (is_word c)
  end.

Definition literal_then_boundary (w s : string) : bool :=
  match match_literal_ci w s with
  | Some rest => at_word_end rest
  | None => false
  end.

(** The alternation followed by [\b], tried at the start of [s]. *)
Definition subject_id_here (s : string) : bool :=
  literal_then_boundary "usubjid" s || literal_then_boundary "subject id" s.

(** The search over all start positions; [prev_word] tells whether the
    character before the position is a word character, which decides the
    leading [\b] (both alternatives start with a letter). *)
Fixpoint search_subject_id (prev_word : bool) (s : string) : bool :=
  (negb prev_word && subject_id_here s) ||
  match s with
  | "" => false
  | String c t => search_subject_id (is_word c) t
  end.

Definition mentions_subject_id (question : string) : bool :=
  search_subject_id false question.

End Text.

(** ** The [json] library: [json.dumps] on a dictionary of strings and
    [json.loads]

    [loads] follows the grammar of CPython's decoder: the four blanks
    between tokens, strict strings (no raw control character, the eight
    short escapes and [\uXXXX]), numbers read as the longest match of the
    decoder's number pattern, the constants [NaN], [Infinity] and
    [-Infinity], no trailing comma, and nothing but blanks after the
    value.  An escape above 0x00FF denotes a character outside the
    model's text and is reported as undecodable.  The interpreter's
    limits on nesting depth and on the digits of an integer are not
    modelled.  The recursion is bounded by a fuel that [loads] sets above
    twice the length of the text; [JsonFacts.loads_fuel_adequate] shows
    that no decoding fails for lack of it. *)

Module Json.

Import Text.

#[local] Unset Elimination Schemes.

Inductive json : Type :=
| JNull
| JBool (b : bool)
| JInt (z : Z)
| JFloat (literal : string)
| JStr (s : string)
| JArr (items : list json)
| JObj (members : list (string * json)).

#[local] Set Elimination Schemes.

Definition backslash : ascii := "\"%char.

Definition hex_digit (n : N) : ascii :=
  if (n <? 10)%N then ascii_of_N (48 + n) else ascii_of_N (87 + n).

(** The escape of one character under [ensure_ascii=True]. *)
Definition escape_char (c : ascii) : string :=
  if Ascii.eqb c dquote then String backslash (String dquote "")
  else if Ascii.eqb c backslash then String backslash (String backslash "")
  else if (code c =? 10)%N then String backslash "n"
  else if (code c =? 13)%N then String backslash "r"
  else if (code c =? 9)%N then String backslash "t"
  else if (code c =? 8)%N then String backslash "b"
  else if (code c =? 12)%N then String backslash "f"
  else if between 32 126 c then String c ""
  else String backslash
         (String "u" (String "0" (String "0"
           (String (hex_digit (code c / 16)) (String (hex_digit (code c mod 16)) ""))))).

Fixpoint escape (s : string) : string :=
  match s with
  | "" => ""
  | String c t => escape_char c ++ escape t
  end.

(** [json.dumps] of a [str]. *)
Definition encode_string (s : string) : string :=
  String dquote (escape s ++ String dquote "").

(** [json.dumps({k1: v1, k2: v2})] for string keys and values. *)
Definition dumps_pair (k1 v1 k2 v2 : string) : string :=
  "{" ++ encode_string k1 ++ ": " ++ encode_string v1 ++ ", "
      ++ encode_string k2 ++ ": " ++ encode_string v2 ++ "}".

Definition is_ws (c : ascii) : bool :=
  (code c =? 32)%N || (code c =? 9)%N || (code c =? 10)%N || (code c =? 13)%N.

Fixpoint skip_ws (s : string) : string :=
  match s with
  | "" => ""
  | String c t => if is_ws c then skip_ws t else s
  end.

Definition hex_value (c : ascii) : option N :=
  if is_digit c then Some (code c - 48)%N
  else if between 97 102 c then Some (code c - 87)%N
  else if between 65 70 c then Some (code c - 55)%N
  else None.

Definition hex4 (a b c d : ascii) : option N :=
  match hex_value a, hex_value b, hex_value c, hex_value d with
  | Some x, Some y, Some z, Some w => Some (((x * 16 + y) * 16 + z) * 16 + w)%N
  | _, _, _, _ => None
  end.

(** The decoder's table of short escapes. *)
Definition unescape (e : ascii) : option ascii :=
  if Ascii.eqb e dquote then Some dquote
  else if Ascii.eqb e backslash then Some backslash
  else if Ascii.eqb e "/" then Some "/"%char
  else if Ascii.eqb e "b" then Some (ascii_of_N 8)
  else if Ascii.eqb e "f" then Some (ascii_of_N 12)
  else if Ascii.eqb e "n" then Some (ascii_of_N 10)
  else if Ascii.eqb e "r" then Some (ascii_of_N 13)
  else if Ascii.eqb e "t" then Some (ascii_of_N 9)
  else None.

Definition push (c : ascii) (r : option (string * string)) : option (string * string) :=
  match r with
  | Some (body, rest) => Some (String c body, rest)
  | None => None
  end.

(** The body of a string, read after its opening quote: the decoded text
    and what follows the closing quote. *)
Fixpoint scan_string (s : string) : option (string * string) :=
  match s with
  | "" => None
  | String c t =>
      if Ascii.eqb c dquote then Some ("", t)
      else if Ascii.eqb c backslash then
        match t with
        | "" => None
        | String e t1 =>
            if Ascii.eqb e "u" then
              match t1 with
              | String h1 (String h2 (String h3 (String h4 t2))) =>
                  match hex4 h1 h2 h3 h4 with
                  | Some n =>
                      if (n <? 256)%N then push (ascii_of_N n) (scan_string t2)
                      else None
                  | None => None
                  end
              | _ => None
              end
            else
              match unescape e with
              | Some ch => push ch (scan_string t1)
              | None => None
              end
        end
      else if (code c <? 32)%N then None
      else push c (scan_string t)
  end.

(** The greedy run [[0-9]*] and what follows it. *)
Fixpoint span_digits (s : string) : string * string :=
  match s with
  | "" => ("", "")
  | String c t =>
      if is_digit c then let '(ds, rest) := span_digits t in (String c ds, rest)
      else ("", s)
  end.

Fixpoint digits_value (acc : Z) (ds : string) : Z :=
  match ds with
  | "" => acc
  | String c t => digits_value (acc * 10 + Z.of_N (code c - 48)) t
  end.

(** The integer part [0|[1-9][0-9]*]. *)
Definition scan_int_part (s : string) : option (string * string) :=
  match s with
  | "" => None
  | String c t =>
      if Ascii.eqb c "0" then Some ("0", t)
      else if is_digit c then
        let '(ds, rest) := span_digits t in Some (String c ds, rest)
      else None
  end.

(** The optional fraction: a dot and at least one digit. *)
Definition scan_frac (s : string) : string * string :=
  match s with
  | String c (String d t) =>
      if Ascii.eqb c "." && is_digit d then
        let '(ds, rest) := span_digits t in (String c (String d ds), rest)
      else ("", s)
  | _ => ("", s)
  end.

Definition is_sign (c : ascii) : bool := Ascii.eqb c "+" || Ascii.eqb c "-".

(** The optional exponent: [e] or [E], an optional sign, at least one
    digit. *)
Definition scan_exp (s : string) : string * string :=
  match s with
  | String e (String c t) =>
      if Ascii.eqb e "e" || Ascii.eqb e "E" then
        if is_digit c then
          let '(ds, rest) := span_digits t in (String e (String c ds), rest)
        else if is_sign c then
          match t with
          | String d t' =>
              if is_digit d then
                let '(ds, rest) := span_digits t' in
                (String e (String c (String d ds)), rest)
              else ("", s)
          | "" => ("", s)
          end
        else ("", s)
      else ("", s)
  | _ => ("", s)
  end.

(** A number: an integer when it has neither fraction nor exponent,
    otherwise a float kept as its literal. *)
Definition scan_number (s : string) : option (json * string) :=
  let '(sign, s1) :=
    match s with
    | String c t => if Ascii.eqb c "-" then ("-", t) else ("", s)
    | "" => ("", s)
    end in
  match scan_int_part s1 with
  | None => None
  | Some (ip, r1) =>
      let '(fp, r2) := scan_frac r1 in
      let '(ep, r3) := scan_exp r2 in
      match fp, ep with
      | "", "" =>
          let z := digits_value 0 ip in
          Some (JInt (if String.eqb sign "-" then (- z)%Z else z), r3)
      | _, _ => Some (JFloat (sign ++ ip ++ fp ++ ep), r3)
      end
  end.

(** [Some rest] when [s] starts with the keyword [w]. *)
Fixpoint eat (w s : string) : option string :=
  match w, s with
  | "", _ => Some s
  | String _ _, "" => None
  | String a w', String b s' => if Ascii.eqb a b then eat w' s' else None
  end.

Definition keyword (w : string) (v : json) (s : string) : option (json * string) :=
  match eat w s with
  | Some rest => Some (v, rest)
  | None => None
  end.

(** The decoder proper.  [parse_value] reads one value at the start of
    [s]; [parse_members] reads the members of an object from the quote
    that opens a key; [parse_items] reads the items of an array from the
    start of an item.  [fuel] bounds the calls. *)
Fixpoint parse_value (fuel : nat) (s : string) : option (json * string) :=
  match fuel with
  | O => None
  | S fuel' =>
      match s with
      | "" => None
      | String c t =>
          if Ascii.eqb c dquote then
            match scan_string t with
            | Some (body, rest) => Some (JStr body, rest)
            | None => None
            end
          else if Ascii.eqb c lbrace then
            match skip_ws t with
            | String d t' =>
                if Ascii.eqb d rbrace then Some (JObj [], t')
                else
                  match parse_members fuel' [] (String d t') with
                  | Some (ms, rest) => Some (JObj ms, rest)
                  | None => None
                  end
            | "" => None
            end
          else if Ascii.eqb c "[" then
            match skip_ws t with
            | String d t' =>
                if Ascii.eqb d "]" then Some (JArr [], t')
                else
                  match parse_items fuel' [] (String d t') with
                  | Some (vs, rest) => Some (JArr vs, rest)
                  | None => None
                  end
            | "" => None
            end
          else if Ascii.eqb c "n" then keyword "null" JNull s
          else if Ascii.eqb c "t" then keyword "true" (JBool true) s
          else if Ascii.eqb c "f" then keyword "false" (JBool false) s
          else
            match scan_number s with
            | Some r => Some r
            | None =>
                if Ascii.eqb c "N" then keyword "NaN" (JFloat "NaN") s
                else if Ascii.eqb c "I" then keyword "Infinity" (JFloat "Infinity") s
                else if Ascii.eqb c "-" then keyword "-Infinity" (JFloat "-Infinity") s
                else None
            end
      end
  end
with parse_members (fuel : nat) (acc : list (string * json)) (s : string)
  : option (list (string * json) * string) :=
  match fuel with
  | O => None
  | S fuel' =>
      match s with
      | "" => None
      | String c t =>
          if Ascii.eqb c dquote then
            match scan_string t with
            | None => None
            | Some (key, r) =>
                match skip_ws r with
                | String colon r1 =>
                    if Ascii.eqb colon ":" then
                      match parse_value fuel' (skip_ws r1) with
                      | None => None
                      | Some (v, r2) =>
                          match skip_ws r2 with
                          | String d r3 =>
                              if Ascii.eqb d rbrace then Some ((acc ++ [(key, v)])%list, r3)
                              else if Ascii.eqb d "," then
                                parse_members fuel' (acc ++ [(key, v)])%list (skip_ws r3)
                              else None
                          | "" => None
                          end
                      end
                    else None
                | "" => None
                end
            end
          else None
      end
  end
with parse_items (fuel : nat) (acc : list json) (s : string)
  : option (list json * string) :=
  match fuel with
  | O => None
  | S fuel' =>
      match parse_value fuel' s with
      | None => None
      | Some (v, r) =>
          match skip_ws r with
          | String d r1 =>
              if Ascii.eqb d "]" then Some ((acc ++ [v])%list, r1)
              else if Ascii.eqb d "," then parse_items fuel' (acc ++ [v])%list (skip_ws r1)
              else None
          | "" => None
          end
      end
  end.

(** [json.loads(s)]: blanks, one value, blanks, end of text.  [None] is
    [JSONDecodeError]. *)
Definition loads (s : string) : option json :=
  match parse_value (2 * String.length s + 2) (skip_ws s) with
  | Some (v, rest) =>
      match skip_ws rest with
      | "" => Some v
      | String _ _ => None
      end
  | None => None
  end.

(** [d.get(key, default)] on the dictionary built from the members in
    reading order: a later member with the same key replaces an earlier
    one. *)
Fixpoint dict_get (key : string) (members : list (string * json)) (default : json) : json :=
  match members with
  | [] => default
  | (k, v) :: rest =>
      dict_get key rest (if String.eqb k key then v else default)
  end.

End Json.

(** ** Exceptions *)

Inductive exn : Type :=
| CollaboratorError (what : string)
| JSONDecodeError
| AttributeError
| KeyError (name : string).

Inductive result (A : Type) : Type :=
| Ok (a : A)
| Raise (e : exn).

Arguments Ok {A} a.
Arguments Raise {A} e.

#[global] Instance result_ret : MRet result := fun _ a => Ok a.

#[global] Instance result_bind : MBind result := fun _ _ f m =>
  match m with
  | Ok a => f a
  | Raise e => Raise e
  end.

(** ** The schema (module level of GenAI.py) *)

Definition nl : string := String (ascii_of_nat 10) "".

Definition SCHEMA : list (string * string) :=
  [ ("USUBJID", "Unique subject id (RETURN ONLY; do not choose as a filter column)");
    ("AETERM", "Adverse event term (e.g., Headache, Fatigue)");
    ("AESOC", "Body system / System Organ Class (e.g., Skin, Cardiac, Eye disorders)");
    ("AESEV", "Severity / intensity (e.g., MILD, MODERATE, SEVERE)");
    ("AEDECOD", "Dictionary-derived term (coded)") ].

Definition MAPPABLE_COLS : list string := map fst SCHEMA.

Definition SCHEMA_TEXT : string :=
  Text.join nl (map (fun kv => "- " ++ fst kv ++ ": " ++ snd kv) SCHEMA).

(** [SCHEMA[col]]; every caller passes a key of the schema. *)
Fixpoint schema_lookup (schema : list (string * string)) (col : string) : string :=
  match schema with
  | [] => ""
  | (k, v) :: rest => if String.eqb k col then v else schema_lookup rest col
  end.

(** [x in l] for a list of strings. *)
Definition str_in (x : string) (l : list string) : bool :=
  existsb (String.eqb x) l.

(** ** The dataset: a pandas frame with the five schema columns *)

Inductive cell : Type :=
| NaN
| Txt (s : string).

Record row : Type := mk_row {
  USUBJID : cell;
  AETERM : cell;
  AESOC : cell;
  AESEV : cell;
  AEDECOD : cell
}.

Abbreviation DataFrame := (list row).

Module Pandas.

Definition field (name : string) : option (row -> cell) :=
  if String.eqb name "USUBJID" then Some USUBJID
  else if String.eqb name "AETERM" then Some AETERM
  else if String.eqb name "AESOC" then Some AESOC
  else if String.eqb name "AESEV" then Some AESEV
  else if String.eqb name "AEDECOD" then Some AEDECOD
  else None.

(** [df[name]]. *)
Definition getitem (df : DataFrame) (name : string) : result (list cell) :=
  match field name with
  | Some f => Ok (map f df)
  | None => Raise (KeyError name)
  end.

Definition notna (c : cell) : bool :=
  match c with
  | NaN => false
  | Txt _ => true
  end.

(** [s.dropna()]. *)
Definition dropna (s : list cell) : list cell := filter (fun c => notna c = true) s.

(** [str] of one value.  [astype(str)] applies it to every value of the
    series, the missing ones included: NaN becomes the text nan (pandas
    before 3.0 on an object column; section 4.3 of the specification
    calls it a literal textual placeholder). *)
Definition str_of_cell (c : cell) : string :=
  match c with
  | NaN => "nan"
  | Txt s => s
  end.

(** [s.astype(str)]. *)
Definition astype_str (s : list cell) : list string := map str_of_cell s.

(** [s.unique()]: the distinct values in order of first appearance. *)
Fixpoint unique_from (seen : list string) (l : list string) : list string :=
  match l with
  | [] => []
  | x :: t =>
      if str_in x seen then unique_from seen t
      else x :: unique_from (x :: seen) t
  end.

Definition unique (l : list string) : list string := unique_from [] l.

(** [s.loc[mask]], the mask and the series having the same index. *)
Fixpoint loc {A} (mask : list bool) (s : list A) : list A :=
  match mask, s with
  | b :: mask', x :: s' => if b then x :: loc mask' s' else loc mask' s'
  | _, _ => []
  end.

End Pandas.

(** [sorted(vals, key=len, reverse=True)]: a stable sort, so values of one
    length keep their order. *)
Fixpoint insert_by_len (x : string) (l : list string) : list string :=
  match l with
  | [] => [x]
  | y :: t =>
      if (String.length y <=? String.length x)%nat then x :: y :: t
      else y :: insert_by_len x t
  end.

Definition sorted_by_len_desc (l : list string) : list string :=
  foldr insert_by_len [] l.

(** The order of [sorted(..., key=len, reverse=True)]: no later value is
    longer. *)
Definition longer_first (x y : string) : Prop := String.length y <= String.length x.

(** ** [re.escape] and the search of an escaped pattern *)

Module Re.

Import Text.

(** The characters [re.escape] protects. *)
Definition special_chars : string :=
  "()[]{}?*+-|^$\.&~# " ++
  String (ascii_of_nat 9) (String (ascii_of_nat 10) (String (ascii_of_nat 13)
    (String (ascii_of_nat 11) (String (ascii_of_nat 12) "")))).

Fixpoint mem_char (c : ascii) (s : string) : bool :=
  match s with
  | "" => false
  | String d t => Ascii.eqb c d || mem_char c t
  end.

Definition is_special (c : ascii) : bool := mem_char c special_chars.

(** [re.escape(s)]. *)
Fixpoint escape (s : string) : string :=
  match s with
  | "" => ""
  | String c t =>
      if is_special c then String Json.backslash (String c (escape t))
      else String c (escape t)
  end.

(** The text a pattern matches when the pattern is a sequence of plain
    characters and of backslash-protected special characters, which is
    the form [escape] produces; [None] for any other pattern. *)
Fixpoint literal_of (pat : string) : option string :=
  match pat with
  | "" => Some ""
  | String c t =>
      if Ascii.eqb c Json.backslash then
        match t with
        | String d t' =>
            if is_special d then option_map (String d) (literal_of t') else None
        | "" => None
        end
      else if is_special c then None
      else option_map (String c) (literal_of t)
  end.

(** [re.search(pat, s, re.IGNORECASE) is not None] for such a pattern. *)
Definition search_ci (pat s : string) : bool :=
  match literal_of pat with
  | Some lit => contains (lower lit) (lower s)
  | None => false
  end.

End Re.

(** ** [ClinicalTrialDataAgent] *)

(** The state of an agent.  [llm] is the collaborator's [invoke] followed
    by [.content]: it returns the text of the answer or raises. *)
Record agent : Type := mk_agent {
  df : DataFrame;
  schema_text : string;
  use_llm : bool;
  llm : option (string -> result string)
}.

(** The dictionary [parse_question] returns. *)
Record query : Type := mk_query {
  target_column : string;
  filter_value : string
}.

(** [ClinicalTrialDataAgent.__init__]: [api_key] is the environment
    variable, [client] the outcome of importing and building the chat
    client. *)
Definition __init__ (df : DataFrame) (schema_text : string)
    (api_key : option string) (client : result (string -> result string)) : agent :=
  let use_llm :=
    match api_key with
    | Some k => negb (String.eqb k "")
    | None => false
    end in
  if use_llm then
    match client with
    | Ok invoke => mk_agent df schema_text true (Some invoke)
    | Raise _ => mk_agent df schema_text false None
    end
  else mk_agent df schema_text false None.

(** [str] of a list of plain names, as the f-string prints it. *)
Definition list_repr (l : list string) : string :=
  "[" ++ Text.join ", " (map (fun c => "'" ++ c ++ "'") l) ++ "]".

Definition _prompt (self : agent) (question : string) : string :=
  Text.strip
    (nl ++ "Return ONLY JSON with keys: target_column, filter_value." ++ nl
     ++ nl ++ "Rules:" ++ nl
     ++ "- target_column MUST be one of: " ++ list_repr MAPPABLE_COLS ++ nl
     ++ "- Do NOT choose USUBJID unless the question explicitly asks to filter by a subject id." ++ nl
     ++ "- Prefer:" ++ nl
     ++ "  - AESEV for severity/intensity (e.g., MILD, MODERATE, SEVERE)" ++ nl
     ++ "  - AETERM for specific AE terms (e.g., Fatigue, Headache, Erythema)" ++ nl
     ++ "  - AESOC for body system (e.g., eye, skin, cardiac, general disorders)" ++ nl
     ++ nl ++ "Schema:" ++ nl
     ++ schema_text self ++ nl
     ++ nl ++ "Question:" ++ nl
     ++ question ++ nl).

Definition _call_llm (self : agent) (question : string) : result string :=
  match llm self with
  | None => Raise AttributeError
  | Some invoke =>
      content ← invoke (_prompt self question);
      Ok (Text.strip content)
  end.

(** *** [_mock_llm]: the deterministic matcher and scorer *)

(** [set(re.findall(r"[a-z0-9]+", s))]. *)
Definition token_set (s : string) : gset string :=
  list_to_set (Text.findall Text.is_lower_alnum s).

Definition cols_to_score : list string :=
  filter (fun c => c ≠ "USUBJID") MAPPABLE_COLS.

(** The score of one column (body of the loop, line 89). *)
Definition column_score (q : string) (qtok : gset string) (col : string) : Z :=
  let desc := schema_lookup SCHEMA col in
  let stok := token_set (Text.lower (col ++ " " ++ desc)) in
  (Z.of_nat (size (qtok ∩ stok)) + (if Text.contains (Text.lower col) q then 2 else 0))%Z.

(** One turn of the loop over [cols_to_score] on the pair
    [(best_col, best_score)]. *)
Definition score_step (q : string) (qtok : gset string)
    (best : string * Z) (col : string) : string * Z :=
  let score := column_score q qtok col in
  if (snd best <? score)%Z then (col, score) else best.

Definition select_column (question : string) : string :=
  let q := Text.lower question in
  let qtok := token_set q in
  fst (foldl (score_step q qtok) ("AETERM", (-1)%Z) cols_to_score).

(** Lines 93-94: the candidate values. *)
Definition candidate_values (col_values : list cell) : list string :=
  take 5000 (sorted_by_len_desc (Pandas.unique (Pandas.astype_str (Pandas.dropna col_values)))).

(** Lines 95-99: the filter value. *)
Definition extract_value (vals : list string) (question : string) : string :=
  let q := Text.lower question in
  let val := default "" (List.find (fun v => Text.contains (Text.lower v) q) vals) in
  if String.eqb val "" then
    match Text.search_quoted question with
    | Some g => g
    | None => Text.join " " (Text.last_n 3 (Text.findall Text.is_ascii_alnum question))
    end
  else val.

Definition _mock_llm (self : agent) (question : string) : result string :=
  let best_col := select_column question in
  col_values ← Pandas.getitem (df self) best_col;
  let vals := candidate_values col_values in
  let val := extract_value vals question in
  Ok (Json.dumps_pair "target_column" best_col "filter_value" val).

(** *** [parse_question] *)

Section Interpreter.

(** [repr] of the JSON values whose printed form the model does not
    compute: floats, lists and dictionaries. *)
Variable py_repr : Json.json -> string.

(** [str(v)] for a decoded JSON value. *)
Definition py_str (v : Json.json) : string :=
  match v with
  | Json.JStr s => s
  | Json.JNull => "None"
  | Json.JBool true => "True"
  | Json.JBool false => "False"
  | Json.JInt z => DecimalString.NilZero.string_of_int (Z.to_int z)
  | _ => py_repr v
  end.

(** [obj.get(key, "")]: only a dictionary has the method. *)
Definition obj_get (obj : Json.json) (key : string) : result Json.json :=
  match obj with
  | Json.JObj members => Ok (Json.dict_get key members (Json.JStr ""))
  | _ => Raise AttributeError
  end.

(** Lines 58-59: the text handed to [json.loads] and its decoding. *)
Definition payload (raw : string) : string :=
  match Text.search_braces raw with
  | Some g => g
  | None => raw
  end.

Definition decode_payload (raw : string) : result Json.json :=
  match Json.loads (payload raw) with
  | Some obj => Ok obj
  | None => Raise JSONDecodeError
  end.

(** Lines 65-71: the two repairs of the column. *)
Definition validate_column (question col : string) : string :=
  let col := if negb (str_in col MAPPABLE_COLS) then "AETERM" else col in
  if String.eqb col "USUBJID" && negb (Text.mentions_subject_id question)
  then "AETERM" else col.

Definition parse_question (self : agent) (question : string) : result query :=
  raw ← (if use_llm self then _call_llm self question else _mock_llm self question);
  obj ← decode_payload raw;
  c ← obj_get obj "target_column";
  let col := Text.strip (py_str c) in
  v ← obj_get obj "filter_value";
  let val := Text.strip (py_str v) in
  Ok (mk_query (validate_column question col) val).

End Interpreter.

(** ** [execute] *)

(** Line 107: the distinct lowered texts of the column, missing values
    dropped. *)
Definition distinct_lowered (column : list cell) : gset string :=
  list_to_set (Pandas.unique (map Text.lower (Pandas.astype_str (Pandas.dropna column)))).

(** Lines 106-110: the row mask, from the column coerced to text as a
    whole. *)
Definition selection_mask (column : list cell) (filter_value : string) : list bool :=
  let s := Pandas.astype_str column in
  let uniq := distinct_lowered column in
  if bool_decide (Text.lower filter_value ∈ uniq)
  then map (fun x => String.eqb (Text.lower x) (Text.lower filter_value)) s
  else map (Re.search_ci (Re.escape filter_value)) s.

Definition execute (df : DataFrame) (target_column filter_value : string)
  : result (nat * list string) :=
  column ← Pandas.getitem df target_column;
  let mask := selection_mask column filter_value in
  ids ← Pandas.getitem df "USUBJID";
  let usubjids := Pandas.unique (Pandas.astype_str (Pandas.dropna (Pandas.loc mask ids))) in
  Ok (length usubjids, usubjids).

(** ** The two sentences of the specification that the code is compared
    with *)

(** Decoding of the raw answer as the specification words it: the brace
    delimited part is decoded, and when that fails the whole answer is
    decoded instead. *)
Definition decode_payload_spec (raw : string) : result Json.json :=
  let whole :=
    match Json.loads raw with
    | Some obj => Ok obj
    | None => Raise JSONDecodeError
    end in
  match Text.search_braces raw with
  | Some g =>
      match Json.loads g with
      | Some obj => Ok obj
      | None => whole
      end
  | None => whole
  end.

(** Value extraction as the specification words it: the first candidate
    that occurs in the question, else the quoted run, else the last
    three tokens. *)
Definition extract_value_spec (vals : list string) (question : string) : string :=
  match List.find (fun v => Text.contains (Text.lower v) (Text.lower question)) vals with
  | Some v => v
  | None =>
      match Text.search_quoted question with
      | Some g => g
      | None => Text.join " " (Text.last_n 3 (Text.findall Text.is_ascii_alnum question))
      end
  end.

(** ** The loop of the script (lines 128-130) *)

(** One turn of the loop: the question is interpreted and the query is
    executed on the frame the agent was built with; the printing is left
    out. *)
Definition run_question (py_repr : Json.json -> string) (self : agent)
    (question : string) : result (query * (nat * list string)) :=
  parsed ← parse_question py_repr self question;
  found ← execute (df self) (target_column parsed) (filter_value parsed);
  Ok (parsed, found).

(** ** Word boundaries *)

(** [\b] holds at the end of [pre], before a word character: [pre] ends
    with a character that is not a word character, or [pre] is empty and
    [prev_word] (the character before it is a word character) is
    false. *)
Fixpoint boundary_after (prev_word : bool) (pre : string) : bool :=
  match pre with
  | "" => negb prev_word
  | String c t => boundary_after (Text.is_word c) t
  end.

(** ** The fixed part of the prompt *)

(** The text of the prompt from its first line to the schema, for a
    given schema text. *)
Definition prompt_rules (schema : string) : string :=
  "Return ONLY JSON with keys: target_column, filter_value." ++ nl
  ++ nl ++ "Rules:" ++ nl
  ++ "- target_column MUST be one of: " ++ list_repr MAPPABLE_COLS ++ nl
  ++ "- Do NOT choose USUBJID unless the question explicitly asks to filter by a subject id." ++ nl
  ++ "- Prefer:" ++ nl
  ++ "  - AESEV for severity/intensity (e.g., MILD, MODERATE, SEVERE)" ++ nl
  ++ "  - AETERM for specific AE terms (e.g., Fatigue, Headache, Erythema)" ++ nl
  ++ "  - AESOC for body system (e.g., eye, skin, cardiac, general disorders)" ++ nl
  ++ nl ++ "Schema:" ++ nl
  ++ schema ++ nl
  ++ nl.

(** The same text with the line that announces the question. *)
Definition prompt_head (schema : string) : string :=
  prompt_rules schema ++ "Question:".

(** ** Sample data used to run the model *)

Definition event (usubjid aeterm aesoc aesev aedecod : string) : row :=
  mk_row (Txt usubjid) (Txt aeterm) (Txt aesoc) (Txt aesev) (Txt aedecod).

(** Five events of four subjects; the fourth has no term, severity or
    coded term. *)
Definition ae_sample : DataFrame :=
  [ event "S1" "Headache" "Nervous system disorders" "MILD" "HEADACHE";
    event "S2" "Headache" "Nervous system disorders" "MODERATE" "HEADACHE";
    event "S3" "Conjunctivitis" "Eye disorders" "SEVERE" "CONJUNCTIVITIS";
    mk_row (Txt "S4") NaN (Txt "Cardiac disorders") NaN NaN;
    event "S1" "Fatigue" "General disorders" "MILD" "FATIGUE" ].

(** An agent started without an API key. *)
Definition fallback_agent : agent :=
  __init__ ae_sample SCHEMA_TEXT None (Raise (CollaboratorError "no client")).

(** An agent started with an API key whose collaborator is unreachable:
    every call of [invoke] raises. *)
Definition unreachable (prompt : string) : result string :=
  Raise (CollaboratorError "connection refused").

Definition failing_agent : agent :=
  __init__ ae_sample SCHEMA_TEXT (Some "sk-key") (Ok unreachable).

(** An agent whose collaborator answers every prompt with [answer]. *)
Definition scripted_agent (answer : string) : agent :=
  __init__ ae_sample SCHEMA_TEXT (Some "sk-key") (Ok (fun _ => Ok answer)).

(** Two events: one whose term is the text NAN, one without a term. *)
Definition nan_text_df : DataFrame :=
  [ event "S1" "NAN" "General disorders" "MILD" "NAN";
    mk_row (Txt "S2") NaN (Txt "General disorders") (Txt "MILD") NaN ].

(** One event whose term is the empty text. *)
Definition blank_term_df : DataFrame :=
  [ event "S1" "" "Eye disorders" "MILD" "CONJUNCTIVITIS" ].

Definition blank_term_agent : agent :=
  __init__ blank_term_df SCHEMA_TEXT None (Raise (CollaboratorError "no client")).

(** A printer for the runs in which no float, list or dictionary is
    printed. *)
Definition repr_unused (v : Json.json) : string := "".

(** * Properties *)

(** ** The model on small inputs *)

Example findall_ex :
  Text.findall Text.is_lower_alnum "which subjects, had x-ray2?" =
  ["which"; "subjects"; "had"; "x"; "ray2"].
Proof. reflexivity. Qed.

Example strip_ex : Text.strip "  a b  " = "a b".
Proof. reflexivity. Qed.

Example braces_ex : Text.search_braces "x {a} {b} y" = Some "{a} {b}".
Proof. reflexivity. Qed.

Example braces_none_ex : Text.search_braces "} x {" = None.
Proof. reflexivity. Qed.

Example quoted_ex :
  let q := String Text.dquote "" in
  Text.search_quoted ("say " ++ q ++ q ++ "eye" ++ q ++ " now") = Some "eye".
Proof. reflexivity. Qed.

Example subject_ex1 : Text.mentions_subject_id "List by Subject ID." = true.
Proof. reflexivity. Qed.

Example subject_ex2 : Text.mentions_subject_id "all usubjids" = false.
Proof. reflexivity. Qed.

Example last_ex : Text.join " " (Text.last_n 3 ["a"; "b"; "c"; "d"]) = "b c d".
Proof. reflexivity. Qed.

Example dumps_ex :
  let q := String Text.dquote "" in
  Json.dumps_pair "target_column" "AETERM" "filter_value" ("a" ++ q ++ "b") =
  "{" ++ q ++ "target_column" ++ q ++ ": " ++ q ++ "AETERM" ++ q ++ ", "
      ++ q ++ "filter_value" ++ q ++ ": " ++ q ++ "a\" ++ q ++ "b" ++ q ++ "}".
Proof. reflexivity. Qed.

Example loads_ex1 :
  Json.loads (Json.dumps_pair "target_column" "AESEV" "filter_value" "MODERATE") =
  Some (Json.JObj [("target_column", Json.JStr "AESEV");
                   ("filter_value", Json.JStr "MODERATE")]).
Proof. vm_compute. reflexivity. Qed.

Example loads_ex2 :
  Json.loads " [1, -2.50e+3, true, null, {}, [ ], -0] " =
  Some (Json.JArr [Json.JInt 1; Json.JFloat "-2.50e+3"; Json.JBool true; Json.JNull;
                   Json.JObj []; Json.JArr []; Json.JInt 0]).
Proof. vm_compute. reflexivity. Qed.

Example loads_ex3 : Json.loads "[1,]" = None.
Proof. vm_compute. reflexivity. Qed.

Example loads_ex4 : Json.loads "{} {}" = None.
Proof. vm_compute. reflexivity. Qed.

Example loads_ex5 : Json.loads "01" = None.
Proof. vm_compute. reflexivity. Qed.

(** The four questions of the script, on the fallback path. *)
Example script_questions :
  map (parse_question repr_unused fallback_agent)
    [ "Give me the subjects who had adverse events of Moderate severity.";
      "Which subjects experienced Headache?";
      "How many subjects have eye disorders?";
      "List the subjects with cardiac disorders." ]
  = [ Ok (mk_query "AESEV" "MODERATE");
      Ok (mk_query "AETERM" "Headache");
      Ok (mk_query "AESOC" "Eye disorders");
      Ok (mk_query "AESOC" "Cardiac disorders") ].
Proof. vm_compute. reflexivity. Qed.

Example execute_headache : execute ae_sample "AETERM" "Headache" = Ok (2, ["S1"; "S2"]).
Proof. vm_compute. reflexivity. Qed.

Example execute_eye : execute ae_sample "AESOC" "Eye disorders" = Ok (1, ["S3"]).
Proof. vm_compute. reflexivity. Qed.

Example execute_partial : execute ae_sample "AESOC" "DISORDERS" = Ok (4, ["S1"; "S2"; "S3"; "S4"]).
Proof. vm_compute. reflexivity. Qed.

Example execute_unknown_column : execute ae_sample "AEOUT" "x" = Raise (KeyError "AEOUT").
Proof. vm_compute. reflexivity. Qed.

(** ** Facts about the text primitives *)

Module TextFacts.

Import Text.

Ltac ascii_cases c := destruct c as [[] [] [] [] [] [] [] []].

Lemma app_assoc_s (a b c : string) : (a ++ b) ++ c = a ++ (b ++ c).
Proof. induction a as [|x a IH]; simpl; [reflexivity | now rewrite IH]. Qed.

Lemma prefix_app (a b : string) : String.prefix a (a ++ b) = true.
Proof.
  induction a as [|x a IH]; simpl.
  - now destruct b.
  - destruct (ascii_dec x x); [exact IH | congruence].
Qed.

Lemma prefix_split (a s : string) :
  String.prefix a s = true -> exists post, s = a ++ post.
Proof.
  revert s. induction a as [|x a IH]; intros s H.
  - now exists s.
  - destruct s as [|y s]; simpl in H; [discriminate|].
    destruct (ascii_dec x y) as [->|]; [|discriminate].
    destruct (IH _ H) as [post ->]. now exists post.
Qed.

(** [contains] is the substring relation. *)
Lemma contains_split (sub s : string) :
  contains sub s = true <-> exists pre post, s = pre ++ sub ++ post.
Proof.
  split.
  - induction s as [|c s IH]; cbn [contains]; intros H.
    + rewrite orb_false_r in H. destruct (prefix_split _ _ H) as [post E].
      exists "", post. exact E.
    + apply orb_true_iff in H as [H|H].
      * destruct (prefix_split _ _ H) as [post E]. exists "", post. exact E.
      * destruct (IH H) as (pre & post & ->). now exists (String c pre), post.
  - intros (pre & post & ->). induction pre as [|c pre IH].
    + change ("" ++ sub ++ post) with (sub ++ post).
      destruct (sub ++ post) eqn:E; cbn [contains];
        rewrite <- E, prefix_app; reflexivity.
    + change (String c pre ++ sub ++ post) with (String c (pre ++ sub ++ post)).
      cbn [contains]. rewrite IH. apply orb_true_r.
Qed.


Lemma all_chars_app p (a b : string) :
  all_chars p (a ++ b) = all_chars p a && all_chars p b.
Proof.
  induction a as [|c a IH]; simpl; [reflexivity|].
  now rewrite IH, andb_assoc.
Qed.

(** A substring of a text made of [p]-characters is made of them too. *)
Lemma contains_all_chars p (sub s : string) :
  all_chars p s = true -> contains sub s = true -> all_chars p sub = true.
Proof.
  intros Hs (pre & post & ->)%contains_split.
  rewrite !all_chars_app in Hs.
  apply andb_true_iff in Hs as [_ Hs]. now apply andb_true_iff in Hs as [Hs _].
Qed.

Lemma lower_app (a b : string) : lower (a ++ b) = lower a ++ lower b.
Proof. induction a as [|c a IH]; simpl; [reflexivity | now rewrite IH]. Qed.

Lemma lower_length (s : string) : String.length (lower s) = String.length s.
Proof. induction s as [|c s IH]; simpl; [reflexivity | now rewrite IH]. Qed.

(** Case-insensitive containment is monotone under lowering. *)
Lemma contains_lower (sub s : string) :
  contains sub s = true -> contains (lower sub) (lower s) = true.
Proof.
  intros (pre & post & ->)%contains_split. apply contains_split.
  exists (lower pre), (lower post). now rewrite !lower_app.
Qed.

Lemma space_lower_char (c : ascii) : is_space c = true -> lower_char c = c.
Proof. ascii_cases c; vm_compute; congruence. Qed.

Lemma lower_char_space (c : ascii) : is_space (lower_char c) = true -> is_space c = true.
Proof. ascii_cases c; vm_compute; congruence. Qed.

Lemma space_not_lower_alnum (c : ascii) : is_space c = true -> is_lower_alnum c = false.
Proof. ascii_cases c; vm_compute; congruence. Qed.

Lemma space_not_ascii_alnum (c : ascii) : is_space c = true -> is_ascii_alnum c = false.
Proof. ascii_cases c; vm_compute; congruence. Qed.

Lemma space_not_dquote (c : ascii) : is_space c = true -> Ascii.eqb c dquote = false.
Proof. ascii_cases c; vm_compute; congruence. Qed.

Lemma lower_spaces (s : string) : all_chars is_space s = true -> lower s = s.
Proof.
  induction s as [|c s IH]; simpl; [reflexivity|].
  intros [Hc Hs]%andb_true_iff. now rewrite (space_lower_char _ Hc), IH.
Qed.

Lemma spaces_of_lower (s : string) :
  all_chars is_space (lower s) = true -> all_chars is_space s = true.
Proof.
  induction s as [|c s IH]; simpl; [reflexivity|].
  intros [Hc Hs]%andb_true_iff. now rewrite (lower_char_space _ Hc), IH.
Qed.

Lemma lstrip_spaces (s : string) : all_chars is_space s = true -> lstrip s = "".
Proof.
  induction s as [|c s IH]; simpl; [reflexivity|].
  intros [Hc Hs]%andb_true_iff. rewrite Hc. auto.
Qed.

Lemma rstrip_nonempty (c : ascii) (t : string) :
  is_space c = false -> rstrip (String c t) <> "".
Proof. intros Hc. simpl. destruct (rstrip t); [rewrite Hc|]; discriminate. Qed.

(** [s.strip()] is empty exactly for a text of whitespace. *)
Lemma strip_empty_iff (s : string) :
  strip s = "" <-> all_chars is_space s = true.
Proof.
  unfold strip. split.
  - induction s as [|c s IH]; [reflexivity|].
    cbn [lstrip all_chars]. destruct (is_space c) eqn:Hc; [exact IH|].
    intros H. now apply rstrip_nonempty in H.
  - intros H. now rewrite lstrip_spaces.
Qed.

Lemma findall_none p (s : string) :
  all_chars (fun c => negb (p c)) s = true -> findall p s = [].
Proof.
  induction s as [|c s IH]; [reflexivity|].
  cbn [all_chars findall]. intros [Hc Hs]%andb_true_iff.
  apply negb_true_iff in Hc. rewrite Hc. auto.
Qed.

Lemma all_chars_impl (p q : ascii -> bool) (s : string) :
  (forall c, p c = true -> q c = true) ->
  all_chars p s = true -> all_chars q s = true.
Proof.
  intros Hpq. induction s as [|c s IH]; simpl; [reflexivity|].
  intros [Hc Hs]%andb_true_iff. now rewrite (Hpq _ Hc), IH.
Qed.

Lemma search_quoted_none (s : string) :
  all_chars (fun c => negb (Ascii.eqb c dquote)) s = true -> search_quoted s = None.
Proof.
  induction s as [|c s IH]; [reflexivity|].
  cbn [all_chars search_quoted]. intros [Hc Hs]%andb_true_iff.
  apply negb_true_iff in Hc. rewrite Hc. auto.
Qed.

(** A case-insensitive match of a literal is a prefix of the lowered
    text. *)
Lemma match_literal_ci_prefix (w s rest : string) :
  match_literal_ci w s = Some rest -> exists post, lower s = lower w ++ post.
Proof.
  revert s. induction w as [|a w IH]; intros s H.
  - now exists (lower s).
  - destruct s as [|b s]; [discriminate|]. simpl in H.
    destruct (Ascii.eqb (lower_char a) (lower_char b)) eqn:E; [|discriminate].
    apply Ascii.eqb_eq in E. destruct (IH _ H) as [post Hp].
    exists post. simpl. now rewrite E, Hp.
Qed.

Lemma literal_then_boundary_contains (w s : string) :
  literal_then_boundary w s = true -> contains (lower w) (lower s) = true.
Proof.
  unfold literal_then_boundary.
  destruct (match_literal_ci w s) as [rest|] eqn:E; [|discriminate]. intros _.
  destruct (match_literal_ci_prefix _ _ _ E) as [post Hp].
  apply contains_split. now exists "", post.
Qed.

Lemma contains_tail (sub : string) (c : ascii) (s : string) :
  contains sub s = true -> contains sub (String c s) = true.
Proof. intros H. simpl. rewrite H. apply orb_true_r. Qed.

Lemma search_subject_id_contains (prev : bool) (s : string) :
  search_subject_id prev s = true ->
  contains "usubjid" (lower s) = true \/ contains "subject id" (lower s) = true.
Proof.
  revert prev. induction s as [|c s IH]; intros prev H.
  - cbn [search_subject_id] in H. rewrite orb_false_r in H.
    apply andb_true_iff in H as [_ H]. vm_compute in H. discriminate.
  - cbn [search_subject_id] in H. apply orb_true_iff in H as [H|H].
    + apply andb_true_iff in H as [_ H]. unfold subject_id_here in H.
      apply orb_true_iff in H as [H|H];
        apply literal_then_boundary_contains in H; [left|right]; exact H.
    + destruct (IH _ H) as [H'|H']; [left|right];
        change (lower (String c s)) with (String (lower_char c) (lower s));
        now apply contains_tail.
Qed.

(** The word search only succeeds on a question that contains one of the
    two phrases, whatever the case of its letters. *)
Lemma mentions_subject_id_contains (question : string) :
  mentions_subject_id question = true ->
  contains "usubjid" (lower question) = true \/
  contains "subject id" (lower question) = true.
Proof. apply search_subject_id_contains. Qed.

End TextFacts.

(** ** The interpreter *)

Ltac elem_list := rewrite ?elem_of_cons, ?elem_of_nil; intuition congruence.

Lemma str_in_mappable (col : string) :
  str_in col MAPPABLE_COLS = true ->
  col = "USUBJID" \/ col ∈ ["AETERM"; "AESOC"; "AESEV"; "AEDECOD"].
Proof.
  unfold str_in, MAPPABLE_COLS. cbn [map fst SCHEMA existsb].
  rewrite !orb_true_iff, !String.eqb_eq. elem_list.
Qed.

(** What the two repairs of lines 65-71 leave. *)
Lemma validate_column_cases (question col : string) :
  validate_column question col ∈ ["AETERM"; "AESOC"; "AESEV"; "AEDECOD"]
  \/ (validate_column question col = "USUBJID" /\ col = "USUBJID"
      /\ Text.mentions_subject_id question = true).
Proof.
  unfold validate_column.
  destruct (str_in col MAPPABLE_COLS) eqn:Hin; cbn [negb].
  - apply str_in_mappable in Hin as [->|Hin].
    + cbn [String.eqb Ascii.eqb Bool.eqb andb].
      destruct (Text.mentions_subject_id question); cbn [negb];
        [right; auto | left; elem_list].
    + left. destruct (String.eqb_spec col "USUBJID") as [->|_]; [|exact Hin].
      revert Hin. elem_list.
  - left. cbn. elem_list.
Qed.

Lemma validate_column_invalid (question col : string) :
  str_in col MAPPABLE_COLS = false -> validate_column question col = "AETERM".
Proof. unfold validate_column. now intros ->. Qed.

Lemma validate_column_identifier (question : string) :
  Text.mentions_subject_id question = false ->
  validate_column question "USUBJID" = "AETERM".
Proof. unfold validate_column. now intros ->. Qed.

(** The column of a successful interpretation went through
    [validate_column]. *)
Lemma parse_question_validated py_repr (self : agent) (question : string) (r : query) :
  parse_question py_repr self question = Ok r ->
  exists col, target_column r = validate_column question col.
Proof.
  unfold parse_question, mbind, result_bind.
  destruct (if use_llm self then _ else _) as [raw|]; [|discriminate].
  destruct (decode_payload raw) as [obj|]; [|discriminate].
  destruct (obj_get obj "target_column") as [c|]; [|discriminate].
  destruct (obj_get obj "filter_value") as [v|]; [|discriminate].
  intros [= <-]. now eexists.
Qed.

(** An exception of the collaborator leaves [parse_question] as it is:
    line 57 calls [_call_llm] outside any handler. *)
Lemma collaborator_failure_propagates py_repr (self : agent) (question : string)
    (invoke : string -> result string) (e : exn) :
  use_llm self = true -> llm self = Some invoke ->
  invoke (_prompt self question) = Raise e ->
  parse_question py_repr self question = Raise e.
Proof.
  intros Hu Hl He. unfold parse_question, _call_llm. now rewrite Hu, Hl, He.
Qed.

(** C2. Whatever the path (collaborator or fallback), the column that
    [parse_question] returns is AETERM, AESOC, AESEV or AEDECOD, or it is
    USUBJID and then the word search for usubjid / subject id succeeds on
    the question, so that the lowered question contains one of the two
    phrases.  The returned column is the result of the repairs applied to
    the column of the payload: a column outside the schema becomes AETERM,
    and so does USUBJID when the word search fails. *)
Theorem C2_target_column_schema_valid py_repr (self : agent) (question : string) (r : query) :
  parse_question py_repr self question = Ok r ->
  (target_column r ∈ ["AETERM"; "AESOC"; "AESEV"; "AEDECOD"]
   \/ (target_column r = "USUBJID"
       /\ Text.mentions_subject_id question = true
       /\ (Text.contains "usubjid" (Text.lower question) = true
           \/ Text.contains "subject id" (Text.lower question) = true)))
  /\ (exists col, target_column r = validate_column question col)
  /\ (forall col, str_in col MAPPABLE_COLS = false ->
        validate_column question col = "AETERM")
  /\ (Text.mentions_subject_id question = false ->
        validate_column question "USUBJID" = "AETERM").
Proof.
  intros H. destruct (parse_question_validated _ _ _ _ H) as [col Hcol].
  split; [|split; [eauto|split]].
  - rewrite Hcol. destruct (validate_column_cases question col) as [Hv|(Hv & _ & Hm)].
    + now left.
    + right. split; [exact Hv|]. split; [exact Hm|].
      now apply TextFacts.mentions_subject_id_contains.
  - intros c. apply validate_column_invalid.
  - apply validate_column_identifier.
Qed.

(** The collaborator names the identifier column; the question does not
    ask for it in one run and does in the other. *)
Lemma C2_witness :
  let answer := Json.dumps_pair "target_column" "USUBJID" "filter_value" "S1" in
  parse_question repr_unused (scripted_agent answer) "Which subjects had Headache?"
    = Ok (mk_query "AETERM" "S1")
  /\ parse_question repr_unused (scripted_agent answer) "Filter by subject id S1"
    = Ok (mk_query "USUBJID" "S1")
  /\ ("USUBJID" ∈ ["AETERM"; "AESOC"; "AESEV"; "AEDECOD"]
      \/ ("USUBJID" = "USUBJID"
          /\ Text.mentions_subject_id "Filter by subject id S1" = true
          /\ (Text.contains "usubjid" (Text.lower "Filter by subject id S1") = true
              \/ Text.contains "subject id" (Text.lower "Filter by subject id S1") = true))).
Proof.
  split; [vm_compute; reflexivity|]. split; [vm_compute; reflexivity|].
  exact (proj1 (C2_target_column_schema_valid repr_unused
           (scripted_agent (Json.dumps_pair "target_column" "USUBJID" "filter_value" "S1"))
           "Filter by subject id S1" (mk_query "USUBJID" "S1")
           ltac:(vm_compute; reflexivity))).
Defined.

(** C1. An agent whose collaborator is configured and raises on every
    call: [parse_question] raises the collaborator's exception, although
    the deterministic fallback answers the same question. *)
Theorem C1_collaborator_failure_surfaces py_repr :
  use_llm failing_agent = true
  /\ parse_question py_repr failing_agent "Which subjects experienced Headache?"
     = Raise (CollaboratorError "connection refused")
  /\ parse_question py_repr fallback_agent "Which subjects experienced Headache?"
     = Ok (mk_query "AETERM" "Headache").
Proof.
  split; [reflexivity|]. split.
  - now apply (collaborator_failure_propagates _ _ _ unreachable).
  - vm_compute. reflexivity.
Qed.

(** ** The scorer: the loop of lines 84-91 finds the first maximum *)

Section FirstMaximum.

Variables (q : string) (qtok : gset string).


Lemma score_step_cases (b : string) (s : Z) (c : string) :
  (score_step q qtok (b, s) c = (c, column_score q qtok c)
   /\ (s < column_score q qtok c)%Z)
  \/ (score_step q qtok (b, s) c = (b, s) /\ (column_score q qtok c <= s)%Z).
Proof.
  unfold score_step. cbn [snd].
  destruct (Z.ltb_spec s (column_score q qtok c)); [left|right]; split; auto.
Qed.

(** Invariant of the loop started from [(b, s)]: the final score bounds
    [s] and the score of every column seen; and either nothing beat the
    start, or the final column stands at some position [i] of the list,
    carries its own score, and every column before it scores strictly
    less. *)
Lemma foldl_score_step (l : list string) (b : string) (s : Z) :
  let r := foldl (score_step q qtok) (b, s) l in
  (s <= snd r)%Z
  /\ (forall c, c ∈ l -> (column_score q qtok c <= snd r)%Z)
  /\ (r = (b, s)
      \/ exists i, l !! i = Some (fst r)
           /\ snd r = column_score q qtok (fst r)
           /\ (s < snd r)%Z
           /\ forall j c, j < i -> l !! j = Some c ->
                (column_score q qtok c < snd r)%Z).
Proof.
  cbv zeta. revert b s. induction l as [|c l IH]; intros b s; cbn [foldl].
  - split; [cbn; lia|]. split; [intros c Hc; now apply elem_of_nil in Hc|now left].
  - destruct (score_step_cases b s c) as [[-> Hlt]|[-> Hge]].
    + destruct (IH c (column_score q qtok c)) as (Hle & Hall & Hpos).
      split; [lia|]. split.
      * intros c' [->|Hc']%elem_of_cons; [exact Hle|now apply Hall].
      * right. destruct Hpos as [Heq|(i & Hi & Hs & Hlt' & Hbefore)].
        -- exists 0. rewrite Heq. cbn. repeat split; try lia.
        -- exists (S i). cbn [lookup list_lookup]. repeat split; try assumption; try lia.
           intros [|j] c' Hj Hc'; cbn in Hc'.
           ++ injection Hc' as <-. exact Hlt'.
           ++ apply (Hbefore j); [lia|exact Hc'].
    + destruct (IH b s) as (Hle & Hall & Hpos).
      split; [exact Hle|]. split.
      * intros c' [->|Hc']%elem_of_cons; [lia|now apply Hall].
      * destruct Hpos as [Heq|(i & Hi & Hs & Hlt' & Hbefore)]; [now left|].
        right. exists (S i). cbn [lookup list_lookup]. repeat split; try assumption.
        intros [|j] c' Hj Hc'; cbn in Hc'.
        -- injection Hc' as <-. lia.
        -- apply (Hbefore j); [lia|exact Hc'].
Qed.

End FirstMaximum.

Lemma cols_to_score_eq : cols_to_score = ["AETERM"; "AESOC"; "AESEV"; "AEDECOD"].
Proof. vm_compute. reflexivity. Qed.

(** The selected column is one of the four scored columns. *)
Lemma select_column_scored (question : string) :
  select_column question ∈ ["AETERM"; "AESOC"; "AESEV"; "AEDECOD"].
Proof.
  unfold select_column.
  destruct (foldl_score_step (Text.lower question) (token_set (Text.lower question))
              cols_to_score "AETERM" (-1)%Z) as (_ & _ & [Heq|(i & Hi & _)]).
  - rewrite Heq. cbn. elem_list.
  - rewrite <- cols_to_score_eq. apply list_elem_of_lookup. eauto.
Qed.


(** ** The decoder reads back what [dumps_pair] writes *)

Module JsonFacts.

Import Text Json TextFacts.

Lemma scan_string_escape_char (c : ascii) (tl : string) :
  scan_string (escape_char c ++ tl) = push c (scan_string tl).
Proof. ascii_cases c; reflexivity. Qed.

Lemma scan_string_escape (s rest : string) :
  scan_string (escape s ++ String dquote rest) = Some (s, rest).
Proof.
  induction s as [|c s IH].
  - reflexivity.
  - cbn [escape]. rewrite app_assoc_s, scan_string_escape_char, IH. reflexivity.
Qed.

Lemma encode_string_app (s rest : string) :
  encode_string s ++ rest = String dquote (escape s ++ String dquote rest).
Proof.
  unfold encode_string.
  change (String dquote (escape s ++ String dquote "") ++ rest)
    with (String dquote ((escape s ++ String dquote "") ++ rest)).
  now rewrite app_assoc_s.
Qed.

(** The characters of a dumped pair, one after the other. *)
Lemma dumps_pair_shape (k1 v1 k2 v2 rest : string) :
  dumps_pair k1 v1 k2 v2 ++ rest =
  String lbrace (String dquote (escape k1 ++ String dquote (String ":" (String " "
    (String dquote (escape v1 ++ String dquote (String "," (String " "
      (String dquote (escape k2 ++ String dquote (String ":" (String " "
        (String dquote (escape v2 ++ String dquote (String rbrace rest))))))))))))))).
Proof.
  unfold dumps_pair. rewrite !app_assoc_s, !encode_string_app. reflexivity.
Qed.

Lemma parse_value_dumps_pair (fuel : nat) (k1 v1 k2 v2 rest : string) :
  parse_value (S (S (S (S fuel)))) (dumps_pair k1 v1 k2 v2 ++ rest) =
  Some (JObj [(k1, JStr v1); (k2, JStr v2)], rest).
Proof.
  rewrite dumps_pair_shape.
  cbn [parse_value]. 
  change (Ascii.eqb lbrace dquote) with false.
  change (Ascii.eqb lbrace lbrace) with true.
  cbn [skip_ws]. change (is_ws dquote) with false.
  change (Ascii.eqb dquote rbrace) with false.
  cbn [parse_members]. change (Ascii.eqb dquote dquote) with true.
  cbv iota. rewrite scan_string_escape.
  cbn [skip_ws]. change (is_ws ":") with false. cbv iota.
  change (Ascii.eqb ":" ":") with true. cbv iota.
  cbn [skip_ws]. change (is_ws " ") with true. cbv iota.
  cbn [skip_ws]. change (is_ws dquote) with false. cbv iota.
  cbn [parse_value]. change (Ascii.eqb dquote dquote) with true. cbv iota.
  rewrite scan_string_escape.
  cbn [skip_ws]. change (is_ws ",") with false. cbv iota.
  change (Ascii.eqb "," rbrace) with false. change (Ascii.eqb "," ",") with true.
  cbv iota.
  cbn [skip_ws]. change (is_ws " ") with true. cbv iota.
  cbn [skip_ws]. change (is_ws dquote) with false. cbv iota.
  cbn [parse_members]. change (Ascii.eqb dquote dquote) with true. cbv iota.
  rewrite scan_string_escape.
  cbn [skip_ws]. change (is_ws ":") with false. cbv iota.
  change (Ascii.eqb ":" ":") with true. cbv iota.
  cbn [skip_ws]. change (is_ws " ") with true. cbv iota.
  cbn [skip_ws]. change (is_ws dquote) with false. cbv iota.
  cbn [parse_value]. change (Ascii.eqb dquote dquote) with true. cbv iota.
  rewrite scan_string_escape.
  cbn [skip_ws]. change (is_ws rbrace) with false. cbv iota.
  change (Ascii.eqb rbrace rbrace) with true. cbv iota.
  reflexivity.
Qed.

Lemma fuel_of_nonempty (c : ascii) (t : string) :
  exists n, 2 * String.length (String c t) + 2 = S (S (S (S n))).
Proof. exists (2 * String.length t). cbn [String.length]. lia. Qed.

(** [json.loads(json.dumps({k1: v1, k2: v2}))] gives the dictionary
    back, whatever the four strings. *)
Lemma loads_dumps_pair (k1 v1 k2 v2 : string) :
  loads (dumps_pair k1 v1 k2 v2) =
  Some (JObj [(k1, JStr v1); (k2, JStr v2)]).
Proof.
  unfold loads.
  assert (Hs : dumps_pair k1 v1 k2 v2 = dumps_pair k1 v1 k2 v2 ++ "").
  { generalize (dumps_pair k1 v1 k2 v2). intros s.
    induction s as [|c s IH]; [reflexivity|]. cbn. now rewrite <- IH. }
  assert (Hws : skip_ws (dumps_pair k1 v1 k2 v2) = dumps_pair k1 v1 k2 v2).
  { rewrite Hs at 1 2. rewrite dumps_pair_shape. reflexivity. }
  assert (Hlen : exists n, 2 * String.length (dumps_pair k1 v1 k2 v2) + 2
                           = S (S (S (S n)))).
  { rewrite Hs, dumps_pair_shape. apply fuel_of_nonempty. }
  destruct Hlen as [n ->]. rewrite Hws, Hs, parse_value_dumps_pair. reflexivity.
Qed.

Lemma upto_last_rbrace_app (a b : string) :
  upto_last_rbrace b = Some b -> upto_last_rbrace (a ++ b) = Some (a ++ b).
Proof.
  intros Hb. induction a as [|c a IH]; [exact Hb|].
  change (String c a ++ b) with (String c (a ++ b)).
  cbn [upto_last_rbrace]. now rewrite IH.
Qed.

(** The brace search returns the whole of a dumped pair. *)
Lemma search_braces_dumps_pair (k1 v1 k2 v2 : string) :
  search_braces (dumps_pair k1 v1 k2 v2) = Some (dumps_pair k1 v1 k2 v2).
Proof.
  unfold dumps_pair.
  change ("{" ++ ?x) with (String lbrace x).
  cbn [search_braces]. change (Ascii.eqb lbrace lbrace) with true. cbv iota.
  rewrite upto_last_rbrace_app; [reflexivity|].
  repeat apply upto_last_rbrace_app. reflexivity.
Qed.

(** *** The fuel of the decoder *)

Lemma skip_ws_length (s : string) : String.length (skip_ws s) <= String.length s.
Proof.
  induction s as [|c s IH]; cbn [skip_ws String.length]; [lia|].
  destruct (is_ws c); cbn [String.length]; lia.
Qed.

Lemma push_some (c : ascii) (r : option (string * string)) (body rest : string) :
  push c r = Some (body, rest) -> exists body', r = Some (body', rest).
Proof. destruct r as [[b r']|]; cbn; [|discriminate]. intros [= _ <-]. eauto. Qed.

Lemma scan_string_shrink_upto (n : nat) (s body rest : string) :
  String.length s <= n ->
  scan_string s = Some (body, rest) -> String.length rest < String.length s.
Proof.
  revert s body rest. induction n as [|n IH]; intros s body rest Hn.
  - destruct s; [discriminate|cbn in Hn; lia].
  - destruct s as [|c t]; [discriminate|]. cbn [scan_string String.length] in *.
    destruct (Ascii.eqb c dquote); [intros [= _ <-]; lia|].
    destruct (Ascii.eqb c backslash).
    + destruct t as [|e t1]; [discriminate|]. cbn [String.length] in *.
      destruct (Ascii.eqb e "u").
      * destruct t1 as [|h1 [|h2 [|h3 [|h4 t2]]]]; try discriminate.
        cbn [String.length] in *.
        destruct (hex4 h1 h2 h3 h4) as [k|]; [|discriminate].
        destruct (k <? 256)%N; [|discriminate].
        intros (b' & H)%push_some. apply IH in H; lia.
      * destruct (unescape e); [|discriminate].
        intros (b' & H)%push_some. apply IH in H; lia.
    + destruct (code c <? 32)%N; [discriminate|].
      intros (b' & H)%push_some. apply IH in H; lia.
Qed.

Lemma scan_string_shrink (s body rest : string) :
  scan_string s = Some (body, rest) -> String.length rest < String.length s.
Proof. now apply (scan_string_shrink_upto (String.length s)). Qed.

Lemma span_digits_length (s : string) :
  String.length (snd (span_digits s)) <= String.length s.
Proof.
  induction s as [|c s IH]; cbn [span_digits String.length snd]; [lia|].
  destruct (is_digit c); cbn [String.length snd]; [|lia].
  destruct (span_digits s); cbn [snd] in *. lia.
Qed.

Lemma scan_int_part_shrink (s ip r : string) :
  scan_int_part s = Some (ip, r) -> String.length r < String.length s.
Proof.
  destruct s as [|c t]; [discriminate|]. cbn [scan_int_part String.length].
  destruct (Ascii.eqb c "0"); [intros [= _ <-]; lia|].
  destruct (is_digit c); [|discriminate].
  pose proof (span_digits_length t). destruct (span_digits t). cbn [snd] in *.
  intros [= _ <-]. lia.
Qed.

Lemma scan_frac_length (s : string) :
  String.length (snd (scan_frac s)) <= String.length s.
Proof.
  destruct s as [|c [|d t]]; cbn [scan_frac snd]; try lia.
  destruct (Ascii.eqb c "." && is_digit d); cbn [snd]; [|lia].
  pose proof (span_digits_length t). destruct (span_digits t).
  cbn [snd String.length] in *. lia.
Qed.

Lemma scan_exp_length (s : string) :
  String.length (snd (scan_exp s)) <= String.length s.
Proof.
  destruct s as [|e [|c t]]; cbn [scan_exp snd]; try lia.
  destruct (Ascii.eqb e "e" || Ascii.eqb e "E"); cbn [snd]; [|lia].
  destruct (is_digit c).
  - pose proof (span_digits_length t). destruct (span_digits t).
    cbn [snd String.length] in *. lia.
  - destruct (is_sign c); cbn [snd]; [|lia].
    destruct t as [|d t']; cbn [snd]; [lia|].
    destruct (is_digit d); cbn [snd]; [|lia].
    pose proof (span_digits_length t'). destruct (span_digits t').
    cbn [snd String.length] in *. lia.
Qed.

Lemma scan_number_shrink (s : string) (v : json) (r : string) :
  scan_number s = Some (v, r) -> String.length r < String.length s.
Proof.
  unfold scan_number.
  set (p := match s with String c t => if Ascii.eqb c "-" then ("-", t) else ("", s) | "" => ("", s) end).
  assert (Hp : String.length (snd p) <= String.length s).
  { subst p. destruct s as [|c t]; cbn [snd]; [lia|].
    destruct (Ascii.eqb c "-"); cbn [snd String.length]; lia. }
  destruct p as [sign s1]. cbn [snd] in Hp.
  destruct (scan_int_part s1) as [[ip r1]|] eqn:Hi; [|discriminate].
  apply scan_int_part_shrink in Hi.
  pose proof (scan_frac_length r1) as Hf. destruct (scan_frac r1) as [fp r2].
  pose proof (scan_exp_length r2) as He. destruct (scan_exp r2) as [ep r3].
  cbn [snd] in *. destruct fp, ep; intros [= _ <-]; lia.
Qed.

Lemma eat_length (w s r : string) :
  eat w s = Some r -> String.length s = String.length w + String.length r.
Proof.
  revert s. induction w as [|a w IH]; intros s; cbn [eat].
  - now intros [= ->].
  - destruct s as [|b s]; [discriminate|]. destruct (Ascii.eqb a b); [|discriminate].
    intros H%IH. cbn [String.length]. lia.
Qed.

Lemma keyword_shrink (w : string) (v v' : json) (s r : string) :
  0 < String.length w ->
  keyword w v s = Some (v', r) -> String.length r < String.length s.
Proof.
  unfold keyword. intros Hw. destruct (eat w s) eqn:He; [|discriminate].
  intros [= _ <-]. apply eat_length in He. lia.
Qed.

Ltac skip_ws_bound t :=
  let H := fresh "Hws" in
  pose proof (skip_ws_length t) as H;
  destruct (skip_ws t); cbn [String.length] in H.

(** What is left after a value, a list of members or a list of items is
    shorter than the text read. *)
Lemma parse_shrink (fuel : nat) :
  (forall s v r, parse_value fuel s = Some (v, r) -> String.length r < String.length s)
  /\ (forall acc s ms r,
        parse_members fuel acc s = Some (ms, r) -> String.length r < String.length s)
  /\ (forall acc s vs r,
        parse_items fuel acc s = Some (vs, r) -> String.length r < String.length s).
Proof.
  induction fuel as [|f (IHv & IHm & IHi)]; [repeat split; intros; discriminate|].
  split; [|split].
  - intros s v r. cbn [parse_value]. destruct s as [|c t]; [discriminate|].
    cbn [String.length].
    destruct (Ascii.eqb c dquote).
    { destruct (scan_string t) as [[b r']|] eqn:E; [|discriminate].
      intros [= _ <-]. apply scan_string_shrink in E. lia. }
    destruct (Ascii.eqb c lbrace).
    { skip_ws_bound t; [discriminate|].
      destruct (Ascii.eqb _ rbrace); [intros [= _ <-]; lia|].
      destruct (parse_members f [] _) as [[ms r']|] eqn:E; [|discriminate].
      intros [= _ <-]. apply IHm in E. cbn [String.length] in E. lia. }
    destruct (Ascii.eqb c "[").
    { skip_ws_bound t; [discriminate|].
      destruct (Ascii.eqb _ "]"); [intros [= _ <-]; lia|].
      destruct (parse_items f [] _) as [[vs r']|] eqn:E; [|discriminate].
      intros [= _ <-]. apply IHi in E. cbn [String.length] in E. lia. }
    destruct (Ascii.eqb c "n"); [intros H; apply keyword_shrink in H; cbn in *; lia|].
    destruct (Ascii.eqb c "t"); [intros H; apply keyword_shrink in H; cbn in *; lia|].
    destruct (Ascii.eqb c "f"); [intros H; apply keyword_shrink in H; cbn in *; lia|].
    destruct (scan_number (String c t)) as [[v' r']|] eqn:E.
    { intros [= _ <-]. apply scan_number_shrink in E. exact E. }
    destruct (Ascii.eqb c "N"); [intros H; apply keyword_shrink in H; cbn in *; lia|].
    destruct (Ascii.eqb c "I"); [intros H; apply keyword_shrink in H; cbn in *; lia|].
    destruct (Ascii.eqb c "-"); [intros H; apply keyword_shrink in H; cbn in *; lia|].
    discriminate.
  - intros acc s ms r. cbn [parse_members]. destruct s as [|c t]; [discriminate|].
    cbn [String.length].
    destruct (Ascii.eqb c dquote); [|discriminate].
    destruct (scan_string t) as [[key r0]|] eqn:Ek; [|discriminate].
    apply scan_string_shrink in Ek.
    skip_ws_bound r0; [discriminate|].
    destruct (Ascii.eqb _ ":"); [|discriminate].
    match goal with |- context [parse_value f (skip_ws ?x)] =>
      pose proof (skip_ws_length x);
      destruct (parse_value f (skip_ws x)) as [[v r2]|] eqn:Ev; [|discriminate]
    end.
    apply IHv in Ev.
    skip_ws_bound r2; [discriminate|].
    destruct (Ascii.eqb _ rbrace); [intros [= _ <-]; lia|].
    destruct (Ascii.eqb _ ","); [|discriminate].
    match goal with |- context [parse_members f _ (skip_ws ?x)] =>
      pose proof (skip_ws_length x)
    end.
    intros H'%IHm. lia.
  - intros acc s vs r. cbn [parse_items].
    destruct (parse_value f s) as [[v r1]|] eqn:Ev; [|discriminate].
    apply IHv in Ev.
    skip_ws_bound r1; [discriminate|].
    destruct (Ascii.eqb _ "]"); [intros [= _ <-]; lia|].
    destruct (Ascii.eqb _ ","); [|discriminate].
    match goal with |- context [parse_items f _ (skip_ws ?x)] =>
      pose proof (skip_ws_length x)
    end.
    intros H'%IHi. lia.
Qed.

(** Above twice the length of the text the amount of fuel is
    irrelevant. *)
Lemma parse_stable_upto (n : nat) :
  (forall s f1 f2, String.length s <= n ->
     2 * String.length s + 1 <= f1 -> 2 * String.length s + 1 <= f2 ->
     parse_value f1 s = parse_value f2 s)
  /\ (forall acc s f1 f2, String.length s <= n ->
        2 * String.length s + 2 <= f1 -> 2 * String.length s + 2 <= f2 ->
        parse_members f1 acc s = parse_members f2 acc s)
  /\ (forall acc s f1 f2, String.length s <= n ->
        2 * String.length s + 2 <= f1 -> 2 * String.length s + 2 <= f2 ->
        parse_items f1 acc s = parse_items f2 acc s).
Proof.
  induction n as [|n (IHv & IHm & IHi)].
  - repeat split.
    + intros [|c t] [|f1] [|f2] Hn H1 H2; cbn [String.length] in *; try lia. reflexivity.
    + intros acc [|c t] [|f1] [|f2] Hn H1 H2; cbn [String.length] in *; try lia. reflexivity.
    + intros acc [|c t] [|f1] [|f2] Hn H1 H2; cbn [String.length] in *; try lia.
      cbn [parse_items]. destruct f1, f2; try lia. reflexivity.
  - assert (Hv : forall s f1 f2, String.length s <= S n ->
              2 * String.length s + 1 <= f1 -> 2 * String.length s + 1 <= f2 ->
              parse_value f1 s = parse_value f2 s).
    { intros s [|f1] [|f2] Hn H1 H2; try lia. cbn [parse_value].
      destruct s as [|c t]; [reflexivity|]. cbn [String.length] in *.
      destruct (Ascii.eqb c dquote); [reflexivity|].
      destruct (Ascii.eqb c lbrace).
      { skip_ws_bound t; [reflexivity|].
        destruct (Ascii.eqb _ rbrace); [reflexivity|].
        rewrite (IHm _ _ f1 f2) by (cbn [String.length]; lia). reflexivity. }
      destruct (Ascii.eqb c "[").
      { skip_ws_bound t; [reflexivity|].
        destruct (Ascii.eqb _ "]"); [reflexivity|].
        rewrite (IHi _ _ f1 f2) by (cbn [String.length]; lia). reflexivity. }
      reflexivity. }
    split; [exact Hv|]. split.
    + intros acc s [|f1] [|f2] Hn H1 H2; try lia. cbn [parse_members].
      destruct s as [|c t]; [reflexivity|]. cbn [String.length] in *.
      destruct (Ascii.eqb c dquote); [|reflexivity].
      destruct (scan_string t) as [[key r0]|] eqn:Ek; [|reflexivity].
      apply scan_string_shrink in Ek.
      skip_ws_bound r0; [reflexivity|].
      destruct (Ascii.eqb _ ":"); [|reflexivity].
      match goal with |- context [parse_value f1 (skip_ws ?x)] =>
        pose proof (skip_ws_length x);
        rewrite (IHv (skip_ws x) f1 f2) by lia;
        destruct (parse_value f2 (skip_ws x)) as [[v r2]|] eqn:Ev; [|reflexivity]
      end.
      apply (proj1 (parse_shrink f2)) in Ev.
      skip_ws_bound r2; [reflexivity|].
      destruct (Ascii.eqb _ rbrace); [reflexivity|].
      destruct (Ascii.eqb _ ","); [|reflexivity].
      match goal with |- context [parse_members f1 _ (skip_ws ?x)] =>
        pose proof (skip_ws_length x)
      end.
      apply IHm; lia.
    + intros acc s [|f1] [|f2] Hn H1 H2; try lia. cbn [parse_items].
      rewrite (Hv s f1 f2) by lia.
      destruct (parse_value f2 s) as [[v r1]|] eqn:Ev; [|reflexivity].
      apply (proj1 (parse_shrink f2)) in Ev.
      skip_ws_bound r1; [reflexivity|].
      destruct (Ascii.eqb _ "]"); [reflexivity|].
      destruct (Ascii.eqb _ ","); [|reflexivity].
      match goal with |- context [parse_items f1 _ (skip_ws ?x)] =>
        pose proof (skip_ws_length x)
      end.
      apply IHi; lia.
Qed.

(** The fuel of [loads] is never the reason of a failure: any larger
    amount gives the same result. *)
Lemma loads_fuel_adequate (s : string) (fuel : nat) :
  2 * String.length s + 2 <= fuel ->
  parse_value fuel (skip_ws s) = parse_value (2 * String.length s + 2) (skip_ws s).
Proof.
  intros Hf. pose proof (skip_ws_length s).
  apply (proj1 (parse_stable_upto (String.length (skip_ws s)))); lia.
Qed.

End JsonFacts.

(** ** The fallback path *)

(** [_mock_llm] never raises: the selected column is a column of the
    frame, and the answer is the dumped pair. *)
Lemma mock_llm_total (self : agent) (question : string) :
  exists col_values,
    Pandas.getitem (df self) (select_column question) = Ok col_values
    /\ _mock_llm self question =
       Ok (Json.dumps_pair "target_column" (select_column question) "filter_value"
             (extract_value (candidate_values col_values) question)).
Proof.
  unfold _mock_llm. pose proof (select_column_scored question) as H.
  rewrite !elem_of_cons, elem_of_nil in H.
  destruct H as [H|[H|[H|[H|[]]]]]; rewrite H; eexists; split; reflexivity.
Qed.

Lemma scored_column_kept (question col : string) :
  col ∈ ["AETERM"; "AESOC"; "AESEV"; "AEDECOD"] ->
  validate_column question (Text.strip col) = col.
Proof.
  rewrite !elem_of_cons, elem_of_nil.
  intros [->|[->|[->|[->|[]]]]]; reflexivity.
Qed.

(** Without a collaborator [parse_question] always answers: the column
    is the selected one and the value is the extracted one, trimmed. *)
Lemma parse_question_fallback py_repr (self : agent) (question : string) :
  use_llm self = false ->
  exists col_values,
    Pandas.getitem (df self) (select_column question) = Ok col_values
    /\ parse_question py_repr self question =
       Ok (mk_query (select_column question)
             (Text.strip (extract_value (candidate_values col_values) question))).
Proof.
  intros Hu. destruct (mock_llm_total self question) as (col_values & Hget & Hmock).
  exists col_values. split; [exact Hget|].
  unfold parse_question. rewrite Hu, Hmock. unfold mbind, result_bind.
  unfold decode_payload, payload.
  rewrite JsonFacts.search_braces_dumps_pair, JsonFacts.loads_dumps_pair.
  cbn [obj_get].
  change (Json.dict_get "target_column" _ _) with (Json.JStr (select_column question)).
  change (Json.dict_get "filter_value" _ _)
    with (Json.JStr (extract_value (candidate_values col_values) question)).
  cbn [py_str]. rewrite scored_column_kept by apply select_column_scored.
  reflexivity.
Qed.

(** C9. The answer of [_mock_llm] depends on the question and on the
    dataset only: two agents that hold the same dataset give the same
    answer to the same question, whatever else differs between them, and
    that answer is a text, never an exception. *)
Theorem C9_mock_llm_function_of_question_and_dataset
    (run1 run2 : agent) (question : string) :
  df run1 = df run2 ->
  _mock_llm run1 question = _mock_llm run2 question
  /\ exists raw, _mock_llm run1 question = Ok raw.
Proof.
  intros Hdf. split.
  - unfold _mock_llm. now rewrite Hdf.
  - destruct (mock_llm_total run1 question) as (col_values & _ & H). eauto.
Qed.

(** Two agents over the same data, one with a collaborator and one
    without. *)
Lemma C9_witness :
  _mock_llm fallback_agent "How many subjects have eye disorders?"
  = _mock_llm failing_agent "How many subjects have eye disorders?"
  /\ exists raw,
       _mock_llm fallback_agent "How many subjects have eye disorders?" = Ok raw.
Proof.
  exact (C9_mock_llm_function_of_question_and_dataset fallback_agent failing_agent
           "How many subjects have eye disorders?" eq_refl).
Defined.

(** ** The empty question *)

Section BlankQuestion.

Import Text TextFacts.

Variable question : string.
Hypothesis blank : all_chars is_space question = true.

Lemma blank_token_set : token_set question = ∅.
Proof.
  unfold token_set. rewrite findall_none; [reflexivity|].
  apply (all_chars_impl is_space); [|exact blank].
  intros c Hc. now rewrite (space_not_lower_alnum _ Hc).
Qed.

Lemma blank_not_contains (sub : string) :
  all_chars is_space sub = false -> contains sub question = false.
Proof.
  intros Hsub. destruct (contains sub question) eqn:E; [|reflexivity].
  now rewrite (contains_all_chars _ _ _ blank E) in Hsub.
Qed.

Lemma blank_column_score (col : string) :
  all_chars is_space (lower col) = false ->
  column_score question ∅ col = 0%Z.
Proof.
  intros Hcol. unfold column_score.
  rewrite (blank_not_contains _ Hcol).
  rewrite (left_absorb_L ∅ (∩)), size_empty. reflexivity.
Qed.

Lemma blank_select_column : select_column question = "AETERM".
Proof.
  unfold select_column. rewrite (lower_spaces _ blank), blank_token_set, cols_to_score_eq.
  cbn [foldl]. unfold score_step.
  rewrite !blank_column_score by reflexivity. reflexivity.
Qed.

(** Whatever the candidates, the extracted value is made of
    whitespace. *)
Lemma blank_extract_value (vals : list string) :
  all_chars is_space (extract_value vals question) = true.
Proof.
  unfold extract_value. rewrite (lower_spaces _ blank).
  destruct (List.find _ vals) as [v|] eqn:Hfind; cbn [from_option id].
  - apply find_some in Hfind as [_ Hv].
    assert (Hsp : all_chars is_space v = true).
    { apply spaces_of_lower. exact (contains_all_chars _ _ _ blank Hv). }
    destruct (String.eqb v ""); [|exact Hsp].
    rewrite search_quoted_none, findall_none; [reflexivity| |].
    + apply (all_chars_impl is_space); [|exact blank].
      intros c Hc. now rewrite (space_not_ascii_alnum _ Hc).
    + apply (all_chars_impl is_space); [|exact blank].
      intros c Hc. now rewrite (space_not_dquote _ Hc).
  - cbn [String.eqb].
    rewrite search_quoted_none, findall_none; [reflexivity| |].
    + apply (all_chars_impl is_space); [|exact blank].
      intros c Hc. now rewrite (space_not_ascii_alnum _ Hc).
    + apply (all_chars_impl is_space); [|exact blank].
      intros c Hc. now rewrite (space_not_dquote _ Hc).
Qed.

End BlankQuestion.

(** C10. On the fallback path a question that is empty or made of
    whitespace only ([question.strip()] is empty) is interpreted as the
    column AETERM with the empty filter value, whatever the dataset. *)
Theorem C10_blank_question_on_fallback py_repr (self : agent) (question : string) :
  use_llm self = false ->
  Text.strip question = "" ->
  parse_question py_repr self question = Ok (mk_query "AETERM" "").
Proof.
  intros Hu Hblank. apply TextFacts.strip_empty_iff in Hblank.
  destruct (parse_question_fallback py_repr self question Hu) as (col_values & _ & ->).
  rewrite (blank_select_column _ Hblank).
  assert (Hv : Text.strip (extract_value (candidate_values col_values) question) = "").
  { apply TextFacts.strip_empty_iff. now apply blank_extract_value. }
  now rewrite Hv.
Qed.

Lemma C10_witness :
  parse_question repr_unused fallback_agent "   " = Ok (mk_query "AETERM" "").
Proof.
  exact (C10_blank_question_on_fallback repr_unused fallback_agent "   " eq_refl eq_refl).
Defined.

(** ** [unique] and the sort by length *)

Lemma str_in_elem_of (x : string) (l : list string) : str_in x l = true <-> x ∈ l.
Proof.
  unfold str_in. rewrite existsb_exists, list_elem_of_In. split.
  - intros (y & Hy & ->%String.eqb_eq). exact Hy.
  - intros Hx. exists x. split; [exact Hx|apply String.eqb_refl].
Qed.

Lemma unique_from_elem_of (seen l : list string) (x : string) :
  x ∈ Pandas.unique_from seen l <-> x ∈ l /\ x ∉ seen.
Proof.
  revert seen. induction l as [|y l IH]; intros seen; cbn [Pandas.unique_from].
  - rewrite elem_of_nil. tauto.
  - destruct (str_in y seen) eqn:Hy.
    + apply str_in_elem_of in Hy. rewrite IH, elem_of_cons.
      split; [tauto|]. intros [[->|Hx] Hn]; tauto.
    + assert (Hy' : y ∉ seen) by (rewrite <- str_in_elem_of, Hy; discriminate).
      rewrite !elem_of_cons, IH, elem_of_cons.
      destruct (decide (x = y)) as [->|Hne]; tauto.
Qed.

Lemma unique_from_NoDup (seen l : list string) : NoDup (Pandas.unique_from seen l).
Proof.
  revert seen. induction l as [|y l IH]; intros seen; cbn [Pandas.unique_from].
  - constructor.
  - destruct (str_in y seen); [apply IH|].
    apply NoDup_cons. split; [|apply IH].
    rewrite unique_from_elem_of, elem_of_cons. tauto.
Qed.

(** [unique] keeps exactly the members, once each. *)
Lemma unique_elem_of (l : list string) (x : string) : x ∈ Pandas.unique l <-> x ∈ l.
Proof. unfold Pandas.unique. rewrite unique_from_elem_of, elem_of_nil. tauto. Qed.

Lemma unique_NoDup (l : list string) : NoDup (Pandas.unique l).
Proof. apply unique_from_NoDup. Qed.

(** The texts of a column without its missing values. *)
Lemma elem_of_texts (column : list cell) (x : string) :
  x ∈ Pandas.astype_str (Pandas.dropna column) <-> Txt x ∈ column.
Proof.
  unfold Pandas.astype_str, Pandas.dropna. rewrite list_elem_of_fmap. split.
  - intros (c & -> & [Hc Hin]%list_elem_of_filter).
    destruct c; [discriminate|exact Hin].
  - intros Hin. exists (Txt x). split; [reflexivity|].
    apply list_elem_of_filter. split; [reflexivity|exact Hin].
Qed.

Lemma insert_by_len_perm (x : string) (l : list string) : insert_by_len x l ≡ₚ x :: l.
Proof.
  induction l as [|y l IH]; cbn [insert_by_len]; [reflexivity|].
  destruct (String.length y <=? String.length x)%nat; [reflexivity|].
  rewrite IH. apply Permutation_swap.
Qed.

Lemma sorted_by_len_desc_perm (l : list string) : sorted_by_len_desc l ≡ₚ l.
Proof.
  induction l as [|x l IH]; [reflexivity|].
  cbn [sorted_by_len_desc foldr]. fold (sorted_by_len_desc l).
  now rewrite insert_by_len_perm, IH.
Qed.

Lemma insert_by_len_sorted (x : string) (l : list string) :
  StronglySorted longer_first l -> StronglySorted longer_first (insert_by_len x l).
Proof.
  induction l as [|y l IH]; cbn [insert_by_len]; intros Hs.
  - repeat constructor.
  - apply StronglySorted_cons in Hs as [Hy Hl].
    destruct (Nat.leb_spec (String.length y) (String.length x)) as [Hle|Hgt].
    + apply StronglySorted_cons. split.
      * constructor; [exact Hle|].
        eapply Forall_impl; [exact Hy|]. unfold longer_first. intros z Hz. lia.
      * apply StronglySorted_cons. now split.
    + apply StronglySorted_cons. split; [|now apply IH].
      rewrite insert_by_len_perm. constructor; [unfold longer_first; lia|exact Hy].
Qed.

Lemma sorted_by_len_desc_sorted (l : list string) :
  StronglySorted longer_first (sorted_by_len_desc l).
Proof.
  induction l as [|x l IH]; [constructor|].
  cbn [sorted_by_len_desc foldr]. now apply insert_by_len_sorted.
Qed.

Lemma take_sorted (n : nat) (l : list string) :
  StronglySorted longer_first l -> StronglySorted longer_first (take n l).
Proof.
  intros Hs. rewrite <- (take_drop n l) in Hs. now apply StronglySorted_app_1_l in Hs.
Qed.

(** The candidates of lines 93-94 are sorted. *)
Lemma candidate_values_sorted (col_values : list cell) :
  StronglySorted longer_first (candidate_values col_values).
Proof. apply take_sorted, sorted_by_len_desc_sorted. Qed.

(** After the empty text in a sorted list there are only empty texts, so
    the test of line 97 amounts to skipping the empty candidate. *)
Lemma find_skips_empty (p : string -> bool) (fallback : string) (vals : list string) :
  StronglySorted longer_first vals ->
  (let val := default "" (List.find p vals) in
   if String.eqb val "" then fallback else val)
  = match List.find (fun v => negb (String.eqb v "") && p v) vals with
    | Some v => v
    | None => fallback
    end.
Proof.
  cbv zeta. induction vals as [|x vals IH]; intros Hs; [reflexivity|].
  apply StronglySorted_cons in Hs as [Hx Hs]. cbn [List.find].
  destruct (p x) eqn:Hp.
  - cbn [from_option id]. destruct (String.eqb_spec x "") as [->|Hne]; cbn [negb andb].
    + assert (Hnone : List.find (fun v => negb (String.eqb v "") && p v) vals = None).
      { clear IH Hs. induction vals as [|y vals IH]; [reflexivity|].
        apply Forall_cons in Hx as [Hy Hx]. cbn [List.find].
        destruct y; [cbn; now apply IH|]. unfold longer_first in Hy. cbn in Hy. lia. }
      now rewrite Hnone.
    + reflexivity.
  - rewrite andb_false_r. now apply IH.
Qed.

(** ** Value extraction *)

(** The candidate skipped by the empty-text test. *)
Lemma C8_counterexample :
  let question := "Which subjects had Headache?" in
  let vals := candidate_values (map AETERM blank_term_df) in
  select_column question = "AETERM"
  /\ vals = [""]
  /\ extract_value_spec vals question = ""
  /\ extract_value vals question = "subjects had Headache"
  /\ extract_value vals question <> extract_value_spec vals question
  /\ _mock_llm blank_term_agent question =
     Ok (Json.dumps_pair "target_column" "AETERM" "filter_value" "subjects had Headache").
Proof. vm_compute. repeat split; try reflexivity. discriminate. Qed.

(** C8 (amended). The candidates are the distinct non-missing texts of
    the selected column, sorted so that no later one is longer, cut to
    the first 5000.  The filter value is the first candidate that is not
    the empty text and whose lowered form occurs in the lowered question;
    when there is none, it is the first double-quoted run of the
    question, and without such a run the last three alphanumeric tokens
    of the question joined by spaces. *)
Theorem C8_value_extraction (self : agent) (question : string) :
  exists col_values,
    Pandas.getitem (df self) (select_column question) = Ok col_values
    /\ let distinct := Pandas.unique (Pandas.astype_str (Pandas.dropna col_values)) in
       let vals := take 5000 (sorted_by_len_desc distinct) in
       NoDup distinct
       /\ (forall v, v ∈ distinct <-> Txt v ∈ col_values)
       /\ sorted_by_len_desc distinct ≡ₚ distinct
       /\ StronglySorted longer_first (sorted_by_len_desc distinct)
       /\ length vals <= 5000
       /\ _mock_llm self question =
          Ok (Json.dumps_pair "target_column" (select_column question) "filter_value"
                match List.find (fun v => negb (String.eqb v "")
                                          && Text.contains (Text.lower v) (Text.lower question))
                        vals with
                | Some v => v
                | None =>
                    match Text.search_quoted question with
                    | Some g => g
                    | None =>
                        Text.join " "
                          (Text.last_n 3 (Text.findall Text.is_ascii_alnum question))
                    end
                end).
Proof.
  destruct (mock_llm_total self question) as (col_values & Hget & Hmock).
  exists col_values. split; [exact Hget|]. cbv zeta.
  split; [apply unique_NoDup|].
  split; [intros v; now rewrite unique_elem_of, elem_of_texts|].
  split; [apply sorted_by_len_desc_perm|].
  split; [apply sorted_by_len_desc_sorted|].
  split; [rewrite length_take; lia|].
  rewrite Hmock. do 2 f_equal. unfold extract_value.
  apply (find_skips_empty (fun v => Text.contains (Text.lower v) (Text.lower question))).
  apply candidate_values_sorted.
Qed.

(** ** The executor *)

Lemma getitem_usubjid (df : DataFrame) :
  Pandas.getitem df "USUBJID" = Ok (map USUBJID df).
Proof. reflexivity. Qed.

(** A member of [s.loc[mask]] is a member of [s] at a position where
    the mask holds. *)
Lemma loc_elem_of {A} (mask : list bool) (s : list A) (x : A) :
  x ∈ Pandas.loc mask s <-> exists i, mask !! i = Some true /\ s !! i = Some x.
Proof.
  revert s. induction mask as [|b mask IH]; intros s.
  - cbn. rewrite elem_of_nil. split; [tauto|]. intros (i & Hi & _). discriminate.
  - destruct s as [|y s].
    + cbn. rewrite elem_of_nil. split; [tauto|]. intros (i & _ & Hi). discriminate.
    + cbn [Pandas.loc].
      assert (Htail : (exists i, (b :: mask) !! i = Some true /\ (y :: s) !! i = Some x)
                      <-> (b = true /\ y = x) \/ exists i, mask !! i = Some true /\ s !! i = Some x).
      { split.
        - intros ([|i] & Hm & Hs); cbn in Hm, Hs; [left|right; eauto].
          split; congruence.
        - intros [[-> ->]|(i & Hm & Hs)]; [exists 0|exists (S i)]; auto. }
      rewrite Htail. destruct b.
      * rewrite elem_of_cons, IH. intuition congruence.
      * rewrite IH. intuition congruence.
Qed.

(** What [execute] returns, when it returns. *)
Lemma execute_result (df : DataFrame)
    (target_column filter_value : string) (count : nat) (subject_ids : list string) :
  execute df target_column filter_value = Ok (count, subject_ids) ->
  exists column,
    Pandas.getitem df target_column = Ok column
    /\ NoDup subject_ids
    /\ count = length subject_ids
    /\ forall s, s ∈ subject_ids <->
         exists i r, df !! i = Some r
                     /\ selection_mask column filter_value !! i = Some true
                     /\ USUBJID r = Txt s.
Proof.
  unfold execute, mbind, result_bind.
  destruct (Pandas.getitem df target_column) as [column|e]; [|discriminate].
  rewrite getitem_usubjid. cbv beta iota zeta. intros H.
  injection H as Hcount Hids. subst.
  exists column. split; [reflexivity|]. split; [apply unique_NoDup|]. split; [reflexivity|].
  intros s. rewrite unique_elem_of, elem_of_texts, loc_elem_of. split.
  - intros (i & Hm & Hs). rewrite list_lookup_fmap in Hs.
    destruct (df !! i) as [r|] eqn:Hr; cbn in Hs; [|discriminate].
    exists i, r. split; [exact Hr|]. split; [exact Hm|congruence].
  - intros (i & r & Hr & Hm & Hu). exists i. split; [exact Hm|].
    now rewrite list_lookup_fmap, Hr, <- Hu.
Qed.

(** On a column of the schema [execute] does not raise. *)
Lemma execute_total (df : DataFrame) (target_column filter_value : string) :
  str_in target_column MAPPABLE_COLS = true ->
  exists count subject_ids,
    execute df target_column filter_value = Ok (count, subject_ids).
Proof.
  intros Hin. unfold execute, mbind, result_bind.
  assert (Hcol : exists column, Pandas.getitem df target_column = Ok column).
  { apply str_in_mappable in Hin. rewrite !elem_of_cons, elem_of_nil in Hin.
    destruct Hin as [->|[->|[->|[->|[->|[]]]]]]; eexists; reflexivity. }
  destruct Hcol as [column ->]. rewrite getitem_usubjid. eauto.
Qed.

(** C6. For a target column of the schema [execute] returns a pair
    [(count, subject_ids)]: the list has no duplicate, [count] is its
    length, and its members are exactly the texts of the identifiers that
    are present in the selected rows, so that a selected row without
    identifier contributes nothing. *)
Theorem C6_execute_distinct_identifiers (df : DataFrame)
    (target_column filter_value : string) :
  str_in target_column MAPPABLE_COLS = true ->
  exists column count subject_ids,
    Pandas.getitem df target_column = Ok column
    /\ execute df target_column filter_value = Ok (count, subject_ids)
    /\ NoDup subject_ids
    /\ count = length subject_ids
    /\ forall s, s ∈ subject_ids <->
         exists i r, df !! i = Some r
                     /\ selection_mask column filter_value !! i = Some true
                     /\ USUBJID r = Txt s.
Proof.
  intros Hin.
  destruct (execute_total df target_column filter_value Hin) as (count & ids & Hex).
  destruct (execute_result _ _ _ _ _ Hex) as (column & Hcol & Hnd & Hlen & Hmem).
  exists column, count, ids. auto.
Qed.

Lemma C6_witness :
  exists column count subject_ids,
    Pandas.getitem ae_sample "AETERM" = Ok column
    /\ execute ae_sample "AETERM" "headache" = Ok (count, subject_ids)
    /\ NoDup subject_ids
    /\ count = length subject_ids
    /\ forall s, s ∈ subject_ids <->
         exists i r, ae_sample !! i = Some r
                     /\ selection_mask column "headache" !! i = Some true
                     /\ USUBJID r = Txt s.
Proof.
  exact (C6_execute_distinct_identifiers ae_sample "AETERM" "headache" eq_refl).
Defined.

(** [re.escape] protects, and the pattern means the text it was made
    from. *)
Lemma literal_of_escape (s : string) : Re.literal_of (Re.escape s) = Some s.
Proof.
  induction s as [|c s IH]; [reflexivity|]. cbn [Re.escape].
  destruct (Re.is_special c) eqn:Hc.
  - cbn [Re.literal_of]. change (Ascii.eqb Json.backslash Json.backslash) with true.
    cbv iota. now rewrite Hc, IH.
  - cbn [Re.literal_of]. rewrite Hc.
    destruct (Ascii.eqb_spec c Json.backslash) as [->|_]; [discriminate Hc|].
    now rewrite IH.
Qed.

Lemma search_ci_escape (filter_value s : string) :
  Re.search_ci (Re.escape filter_value) s
  = Text.contains (Text.lower filter_value) (Text.lower s).
Proof. unfold Re.search_ci. now rewrite literal_of_escape. Qed.

(** The distinct lowered values are the lowered texts of the column. *)
Lemma elem_of_distinct_lowered (column : list cell) (x : string) :
  x ∈ distinct_lowered column <-> exists s, Txt s ∈ column /\ Text.lower s = x.
Proof.
  unfold distinct_lowered. rewrite elem_of_list_to_set, unique_elem_of, list_elem_of_fmap.
  split.
  - intros (s & -> & Hs%elem_of_texts). eauto.
  - intros (s & Hs%elem_of_texts & <-). eauto.
Qed.

(** The mask at a row, by the text the row is coerced to: equality of
    the lowered texts when the lowered filter value is one of the
    distinct lowered values, containment otherwise. *)
Lemma selection_mask_lookup (column : list cell) (filter_value : string) (i : nat) (c : cell) :
  column !! i = Some c ->
  selection_mask column filter_value !! i =
  Some (if bool_decide (Text.lower filter_value ∈ distinct_lowered column)
        then String.eqb (Text.lower (Pandas.str_of_cell c)) (Text.lower filter_value)
        else Text.contains (Text.lower filter_value) (Text.lower (Pandas.str_of_cell c))).
Proof.
  intros Hc. unfold selection_mask, Pandas.astype_str.
  destruct (bool_decide _); rewrite !list_lookup_fmap, Hc; cbn; [reflexivity|].
  now rewrite search_ci_escape.
Qed.

(** On the rows that hold a text the mask is the one of the
    specification: exact match when some value equals the filter value
    up to case, substring match otherwise. *)
Lemma selection_mask_text_row (column : list cell) (filter_value : string) (i : nat) (s : string) :
  column !! i = Some (Txt s) ->
  ((exists s', Txt s' ∈ column /\ Text.lower s' = Text.lower filter_value) ->
     selection_mask column filter_value !! i
     = Some (String.eqb (Text.lower s) (Text.lower filter_value)))
  /\ (~ (exists s', Txt s' ∈ column /\ Text.lower s' = Text.lower filter_value) ->
     selection_mask column filter_value !! i
     = Some (Text.contains (Text.lower filter_value) (Text.lower s))).
Proof.
  intros Hc. rewrite (selection_mask_lookup _ _ _ _ Hc). cbn [Pandas.str_of_cell].
  rewrite <- elem_of_distinct_lowered. split; intros H.
  - now rewrite bool_decide_eq_true_2.
  - now rewrite bool_decide_eq_false_2.
Qed.


(** C3. Two runs in which a row without a value in the target column is
    selected.  Substring branch: no term of the sample contains na, the
    fourth event has no term, and the filter value na selects that event
    alone, through the text nan its missing term is coerced to.  Exact
    branch: with the filter value nan and a term NAN in the column, the
    event without a term is selected next to the event that matches. *)
Theorem C3_rows_without_value_match :
  Pandas.astype_str (Pandas.dropna (map AETERM ae_sample))
    = ["Headache"; "Headache"; "Conjunctivitis"; "Fatigue"]
  /\ bool_decide (Text.lower "na" ∈ distinct_lowered (map AETERM ae_sample)) = false
  /\ map AETERM ae_sample !! 3 = Some NaN
  /\ selection_mask (map AETERM ae_sample) "na" = [false; false; false; true; false]
  /\ execute ae_sample "AETERM" "na" = Ok (1, ["S4"])
  /\ bool_decide (Text.lower "nan" ∈ distinct_lowered (map AETERM nan_text_df)) = true
  /\ map AETERM nan_text_df = [Txt "NAN"; NaN]
  /\ selection_mask (map AETERM nan_text_df) "nan" = [true; true]
  /\ execute nan_text_df "AETERM" "nan" = Ok (2, ["S1"; "S2"]).
Proof. vm_compute. repeat split; reflexivity. Qed.

(** C4. The substring branch selects a row without a value: with the
    empty filter value on AESEV, where no severity is the empty text,
    all five events of the sample are selected, the fourth included,
    whose severity is missing, and subject S4 is returned. *)
Theorem C4_substring_branch_selects_missing :
  bool_decide (Text.lower "" ∈ distinct_lowered (map AESEV ae_sample)) = false
  /\ map AESEV ae_sample = [Txt "MILD"; Txt "MODERATE"; Txt "SEVERE"; NaN; Txt "MILD"]
  /\ selection_mask (map AESEV ae_sample) "" = [true; true; true; true; true]
  /\ execute ae_sample "AESEV" "" = Ok (4, ["S1"; "S2"; "S3"; "S4"]).
Proof. vm_compute. repeat split; reflexivity. Qed.

(** ** The brace search and the decoding of the payload *)

Module BraceFacts.

Import Text TextFacts.

Lemma upto_last_rbrace_none (s : string) :
  upto_last_rbrace s = None <->
  all_chars (fun c => negb (Ascii.eqb c rbrace)) s = true.
Proof.
  induction s as [|c s IH]; cbn [upto_last_rbrace all_chars]; [tauto|].
  destruct (upto_last_rbrace s) as [p|].
  - split; [discriminate|]. intros [_ H]%andb_true_iff. apply IH in H. discriminate.
  - destruct (Ascii.eqb c rbrace); cbn [negb andb].
    + split; discriminate.
    + split; [intros _; now apply IH|reflexivity].
Qed.

(** The prefix found runs up to the last closing brace. *)
Lemma upto_last_rbrace_some (s p : string) :
  upto_last_rbrace s = Some p <->
  exists mid post,
    s = mid ++ String rbrace post
    /\ p = mid ++ String rbrace ""
    /\ all_chars (fun c => negb (Ascii.eqb c rbrace)) post = true.
Proof.
  split.
  - revert p. induction s as [|c s IH]; intros p; cbn [upto_last_rbrace]; [discriminate|].
    destruct (upto_last_rbrace s) as [p'|] eqn:Hs.
    + intros [= <-]. destruct (IH _ eq_refl) as (mid & post & -> & -> & Hpost).
      now exists (String c mid), post.
    + destruct (Ascii.eqb_spec c rbrace) as [->|]; [|discriminate].
      intros [= <-]. exists "", s. now apply upto_last_rbrace_none in Hs.
  - intros (mid & post & -> & -> & Hpost). induction mid as [|c mid IH].
    + change ("" ++ String rbrace post) with (String rbrace post).
      cbn [upto_last_rbrace]. apply upto_last_rbrace_none in Hpost. now rewrite Hpost.
    + change (String c mid ++ String rbrace post) with (String c (mid ++ String rbrace post)).
      cbn [upto_last_rbrace]. now rewrite IH.
Qed.

Lemma has_rbrace (mid post : string) : upto_last_rbrace (mid ++ String rbrace post) <> None.
Proof.
  rewrite upto_last_rbrace_none, all_chars_app. cbn [all_chars].
  change (Ascii.eqb rbrace rbrace) with true. cbn [negb andb].
  rewrite andb_false_r. discriminate.
Qed.

(** The match of the brace search: it starts at the first opening brace
    and ends at the last closing brace. *)
Lemma search_braces_some (raw g : string) :
  search_braces raw = Some g <->
  exists pre mid post,
    raw = pre ++ String lbrace (mid ++ String rbrace post)
    /\ g = String lbrace (mid ++ String rbrace "")
    /\ all_chars (fun c => negb (Ascii.eqb c lbrace)) pre = true
    /\ all_chars (fun c => negb (Ascii.eqb c rbrace)) post = true.
Proof.
  split.
  - revert g. induction raw as [|c raw IH]; intros g; cbn [search_braces]; [discriminate|].
    destruct (Ascii.eqb_spec c lbrace) as [->|Hc].
    + destruct (upto_last_rbrace raw) as [p|] eqn:Hp.
      * intros [= <-]. apply upto_last_rbrace_some in Hp as (mid & post & -> & -> & Hpost).
        now exists "", mid, post.
      * intros H. destruct (IH _ H) as (pre & mid & post & -> & _).
        exfalso. revert Hp.
        change (pre ++ String lbrace (mid ++ String rbrace post))
          with (pre ++ (String lbrace mid ++ String rbrace post)).
        rewrite <- app_assoc_s. apply has_rbrace.
    + intros H. destruct (IH _ H) as (pre & mid & post & -> & -> & Hpre & Hpost).
      exists (String c pre), mid, post. repeat split; try assumption.
      cbn [all_chars]. rewrite Hpre. apply Ascii.eqb_neq in Hc. now rewrite Hc.
  - intros (pre & mid & post & -> & -> & Hpre & Hpost). induction pre as [|c pre IH].
    + change ("" ++ ?x) with x. cbn [search_braces].
      change (Ascii.eqb lbrace lbrace) with true. cbv iota.
      assert (Hp : upto_last_rbrace (mid ++ String rbrace post)
                   = Some (mid ++ String rbrace "")).
      { apply upto_last_rbrace_some. now exists mid, post. }
      now rewrite Hp.
    + cbn [all_chars] in Hpre. apply andb_true_iff in Hpre as [Hc Hpre].
      apply negb_true_iff in Hc.
      change (String c pre ++ ?x) with (String c (pre ++ x)).
      cbn [search_braces]. rewrite Hc. now apply IH.
Qed.

(** The search fails exactly when no opening brace is followed by a
    closing one. *)
Lemma search_braces_none (raw : string) :
  search_braces raw = None <->
  ~ exists pre mid post, raw = pre ++ String lbrace (mid ++ String rbrace post).
Proof.
  split.
  - intros Hnone (pre & mid & post & ->). revert Hnone. induction pre as [|c pre IH].
    + change ("" ++ ?x) with x. cbn [search_braces].
      change (Ascii.eqb lbrace lbrace) with true. cbv iota.
      pose proof (has_rbrace mid post).
      destruct (upto_last_rbrace (mid ++ String rbrace post)); [discriminate|congruence].
    + change (String c pre ++ ?x) with (String c (pre ++ x)). cbn [search_braces].
      destruct (Ascii.eqb c lbrace); [|exact IH].
      assert (H : upto_last_rbrace (pre ++ String lbrace (mid ++ String rbrace post)) <> None).
      { change (pre ++ String lbrace (mid ++ String rbrace post))
          with (pre ++ (String lbrace mid ++ String rbrace post)).
        rewrite <- app_assoc_s. apply has_rbrace. }
      destruct (upto_last_rbrace _); [discriminate|congruence].
  - intros Hno. destruct (search_braces raw) as [g|] eqn:Hg; [|reflexivity].
    exfalso. apply Hno. apply search_braces_some in Hg as (pre & mid & post & -> & _).
    eauto.
Qed.

End BraceFacts.

(** The answer is a list of two dictionaries: the text between the first
    opening and the last closing brace is not JSON, the whole answer is,
    and [parse_question] raises the decoding error. *)
Lemma C5_counterexample :
  Text.search_braces "[{}, {}]" = Some "{}, {}"
  /\ Json.loads "{}, {}" = None
  /\ Json.loads "[{}, {}]" = Some (Json.JArr [Json.JObj []; Json.JObj []])
  /\ decode_payload "[{}, {}]" = Raise JSONDecodeError
  /\ decode_payload_spec "[{}, {}]" = Ok (Json.JArr [Json.JObj []; Json.JObj []])
  /\ decode_payload "[{}, {}]" <> decode_payload_spec "[{}, {}]"
  /\ parse_question repr_unused (scripted_agent "[{}, {}]") "Which subjects had Headache?"
     = Raise JSONDecodeError.
Proof. vm_compute. repeat split; try reflexivity. discriminate. Qed.

(** C5 (amended). The search returns the text from the first opening
    brace to the last closing brace of the raw answer, when an opening
    brace is followed by a closing one, and nothing otherwise.  When it
    returns a text, that text alone is decoded and a failure to decode it
    is the decoding error of [parse_question]: the raw answer is not
    tried.  Only when the search returns nothing is the whole raw answer
    decoded, and a failure there is the decoding error as well. *)
Theorem C5_payload_decoding (raw : string) :
  (forall g, Text.search_braces raw = Some g ->
     decode_payload raw =
     match Json.loads g with
     | Some obj => Ok obj
     | None => Raise JSONDecodeError
     end)
  /\ (Text.search_braces raw = None ->
     decode_payload raw =
     match Json.loads raw with
     | Some obj => Ok obj
     | None => Raise JSONDecodeError
     end)
  /\ (forall g, Text.search_braces raw = Some g <->
        exists pre mid post,
          raw = pre ++ String Text.lbrace (mid ++ String Text.rbrace post)
          /\ g = String Text.lbrace (mid ++ String Text.rbrace "")
          /\ Text.all_chars (fun c => negb (Ascii.eqb c Text.lbrace)) pre = true
          /\ Text.all_chars (fun c => negb (Ascii.eqb c Text.rbrace)) post = true)
  /\ (Text.search_braces raw = None <->
        ~ exists pre mid post,
            raw = pre ++ String Text.lbrace (mid ++ String Text.rbrace post))
  /\ (forall py_repr self question e,
        (if use_llm self then _call_llm self question else _mock_llm self question) = Ok raw ->
        decode_payload raw = Raise e ->
        parse_question py_repr self question = Raise e).
Proof.
  split; [|split; [|split; [|split]]].
  - intros g Hg. unfold decode_payload, payload. now rewrite Hg.
  - intros Hg. unfold decode_payload, payload. now rewrite Hg.
  - apply BraceFacts.search_braces_some.
  - apply BraceFacts.search_braces_none.
  - intros py_repr self question e Hraw He. unfold parse_question.
    rewrite Hraw. unfold mbind, result_bind. now rewrite He.
Qed.

Lemma C5_witness :
  decode_payload "[{}, {}]" =
    match Json.loads "{}, {}" with
    | Some obj => Ok obj
    | None => Raise JSONDecodeError
    end
  /\ parse_question repr_unused (scripted_agent "[{}, {}]") "Which subjects had Headache?"
     = Raise JSONDecodeError.
Proof.
  split.
  - exact (proj1 (C5_payload_decoding "[{}, {}]") "{}, {}" ltac:(vm_compute; reflexivity)).
  - exact (proj2 (proj2 (proj2 (proj2 (C5_payload_decoding "[{}, {}]"))))
             repr_unused (scripted_agent "[{}, {}]") "Which subjects had Headache?"
             JSONDecodeError ltac:(vm_compute; reflexivity) ltac:(vm_compute; reflexivity)).
Defined.

(** * Further properties of the code *)

(** ** Trimming *)

Module StripFacts.

Import Text TextFacts.

Lemma rstrip_cons (c : ascii) (t : string) :
  rstrip (String c t) =
  match rstrip t with
  | "" => if is_space c then "" else String c ""
  | String _ _ => String c (rstrip t)
  end.
Proof. cbn [rstrip]. now destruct (rstrip t). Qed.

Lemma rstrip_cons_nonspace (c : ascii) (t : string) :
  is_space c = false -> rstrip (String c t) = String c (rstrip t).
Proof. intros Hc. rewrite rstrip_cons, Hc. now destruct (rstrip t). Qed.

Lemma rstrip_idempotent (s : string) : rstrip (rstrip s) = rstrip s.
Proof.
  induction s as [|c t IH]; [reflexivity|].
  rewrite (rstrip_cons c t). destruct (rstrip t) as [|d r] eqn:Ht.
  - destruct (is_space c) eqn:Hc; [reflexivity|].
    now rewrite rstrip_cons_nonspace.
  - rewrite rstrip_cons, IH. reflexivity.
Qed.

Lemma lstrip_head (s : string) :
  lstrip s = "" \/ exists c t, lstrip s = String c t /\ is_space c = false.
Proof.
  induction s as [|c t IH]; [now left|]. cbn [lstrip].
  destruct (is_space c) eqn:Hc; [exact IH|]. right. eauto.
Qed.

(** [strip] leaves a text that [strip] does not change. *)
Lemma strip_idempotent (s : string) : strip (strip s) = strip s.
Proof.
  unfold strip. destruct (lstrip_head s) as [->|(c & t & -> & Hc)]; [reflexivity|].
  rewrite (rstrip_cons_nonspace _ _ Hc). cbn [lstrip]. rewrite Hc.
  rewrite <- (rstrip_cons_nonspace _ _ Hc). apply rstrip_idempotent.
Qed.

(** Whitespace at the end does not survive [rstrip]. *)
Lemma rstrip_app_spaces (s w : string) :
  all_chars is_space w = true -> rstrip (s ++ w) = rstrip s.
Proof.
  intros Hw. induction s as [|c t IH].
  - change ("" ++ w) with w. induction w as [|d w IHw]; [reflexivity|].
    cbn [all_chars] in Hw. apply andb_true_iff in Hw as [Hd Hw].
    rewrite rstrip_cons, (IHw Hw). cbn [rstrip]. now rewrite Hd.
  - change (String c t ++ w) with (String c (t ++ w)).
    now rewrite !rstrip_cons, IH.
Qed.

End StripFacts.

(** ** The constructor *)

(** X1. An agent built by [__init__] uses the collaborator exactly when
    it holds one, which is exactly when the API key is a non-empty text
    and the client could be built; the frame and the schema text are
    stored as given. *)
Theorem X1_init_collaborator_invariant (frame : DataFrame) (text : string)
    (api_key : option string) (client : result (string -> result string)) :
  let self := __init__ frame text api_key client in
  (use_llm self = true <-> exists invoke, llm self = Some invoke)
  /\ (use_llm self = true <->
      (exists key, api_key = Some key /\ key <> "") /\ exists invoke, client = Ok invoke)
  /\ df self = frame
  /\ schema_text self = text.
Proof.
  cbv zeta. unfold __init__.
  destruct api_key as [key|]; [destruct (String.eqb_spec key "") as [->|Hk]|];
    cbn [negb]; try destruct client as [invoke|e]; cbn.
  all: repeat split; try discriminate; eauto.
  all: try (intros [? ?]; discriminate).
  all: try (intros [(? & [= <-] & ?) _]; congruence).
  all: try (intros [(? & ? & ?) _]; congruence).
  all: try (intros [_ [? ?]]; discriminate).
Qed.

(** ** The fallback path *)

(** X2. Without a collaborator [parse_question] never raises.  The
    column it returns is the one the scorer selects, one of AETERM,
    AESOC, AESEV and AEDECOD and never USUBJID, whatever the question
    says.  The filter value it returns is the value extracted by the
    matcher, trimmed: it comes back unchanged from the JSON text the
    matcher writes and the interpreter reads, whatever characters it
    holds, and has no whitespace left at its ends. *)
Theorem X2_fallback_always_answers py_repr (self : agent) (question : string) :
  use_llm self = false ->
  exists r col_values,
    parse_question py_repr self question = Ok r
    /\ target_column r = select_column question
    /\ target_column r ∈ ["AETERM"; "AESOC"; "AESEV"; "AEDECOD"]
    /\ target_column r <> "USUBJID"
    /\ Pandas.getitem (df self) (select_column question) = Ok col_values
    /\ filter_value r = Text.strip (extract_value (candidate_values col_values) question)
    /\ Text.strip (filter_value r) = filter_value r.
Proof.
  intros Hu.
  destruct (parse_question_fallback py_repr self question Hu) as (col_values & Hget & ->).
  eexists. exists col_values. split; [reflexivity|]. cbn [target_column filter_value].
  pose proof (select_column_scored question) as Hsel.
  split; [reflexivity|]. split; [exact Hsel|]. split; [|split; [exact Hget|split]].
  - intros Heq. rewrite Heq in Hsel. revert Hsel.
    rewrite !elem_of_cons, elem_of_nil. intuition discriminate.
  - reflexivity.
  - apply StripFacts.strip_idempotent.
Qed.

Lemma X2_witness :
  exists r col_values,
    parse_question repr_unused fallback_agent "Filter by subject id S1" = Ok r
    /\ target_column r = select_column "Filter by subject id S1"
    /\ target_column r ∈ ["AETERM"; "AESOC"; "AESEV"; "AEDECOD"]
    /\ target_column r <> "USUBJID"
    /\ Pandas.getitem (df fallback_agent) (select_column "Filter by subject id S1")
       = Ok col_values
    /\ filter_value r
       = Text.strip (extract_value (candidate_values col_values) "Filter by subject id S1")
    /\ Text.strip (filter_value r) = filter_value r.
Proof.
  exact (X2_fallback_always_answers repr_unused fallback_agent
           "Filter by subject id S1" eq_refl).
Defined.

(** ** Interpretation followed by execution *)

Lemma validate_column_mappable (question col : string) :
  str_in (validate_column question col) MAPPABLE_COLS = true.
Proof.
  destruct (validate_column_cases question col) as [H|(-> & _)]; [|reflexivity].
  revert H. rewrite !elem_of_cons, elem_of_nil.
  intros [->|[->|[->|[->|[]]]]]; reflexivity.
Qed.

(** X3. Whenever [parse_question] returns a query, [execute] accepts it:
    the column of the query is a column of the frame, so the turn of the
    loop ends with the query and a result whose count is the number of
    identifiers returned.  No interpretation leads to a [KeyError] in
    the executor. *)
Theorem X3_interpreted_query_executes py_repr (self : agent) (question : string) (r : query) :
  parse_question py_repr self question = Ok r ->
  exists count subject_ids,
    execute (df self) (target_column r) (filter_value r) = Ok (count, subject_ids)
    /\ run_question py_repr self question = Ok (r, (count, subject_ids))
    /\ count = length subject_ids.
Proof.
  intros Hp. destruct (parse_question_validated _ _ _ _ Hp) as [col Hcol].
  destruct (execute_total (df self) (target_column r) (filter_value r)) as (count & ids & He).
  { rewrite Hcol. apply validate_column_mappable. }
  exists count, ids. split; [exact He|]. split.
  - unfold run_question. rewrite Hp. unfold mbind, result_bind. now rewrite He.
  - now destruct (execute_result _ _ _ _ _ He) as (_ & _ & _ & Hlen & _).
Qed.

Lemma X3_witness :
  exists count subject_ids,
    execute (df fallback_agent) "AETERM" "Headache" = Ok (count, subject_ids)
    /\ run_question repr_unused fallback_agent "Which subjects experienced Headache?"
       = Ok (mk_query "AETERM" "Headache", (count, subject_ids))
    /\ count = length subject_ids.
Proof.
  exact (X3_interpreted_query_executes repr_unused fallback_agent
           "Which subjects experienced Headache?" (mk_query "AETERM" "Headache")
           ltac:(vm_compute; reflexivity)).
Defined.

(** ** The collaborator path *)

(** On the collaborator path the raw answer is the trimmed content of
    the collaborator's reply. *)
Lemma parse_question_collaborator py_repr (self : agent) (question : string)
    (invoke : string -> result string) (content : string) :
  use_llm self = true -> llm self = Some invoke ->
  invoke (_prompt self question) = Ok content ->
  parse_question py_repr self question =
  (obj ← decode_payload (Text.strip content);
   c ← obj_get obj "target_column";
   v ← obj_get obj "filter_value";
   Ok (mk_query (validate_column question (Text.strip (py_str py_repr c)))
         (Text.strip (py_str py_repr v)))).
Proof.
  intros Hu Hl Hc. unfold parse_question, _call_llm. rewrite Hu, Hl, Hc. reflexivity.
Qed.

Lemma dict_get_absent (key : string) (members : list (string * Json.json))
    (default : Json.json) :
  (forall v, (key, v) ∉ members) -> Json.dict_get key members default = default.
Proof.
  revert default. induction members as [|[k v] members IH]; intros default Habs;
    [reflexivity|].
  cbn [Json.dict_get]. destruct (String.eqb_spec k key) as [->|_].
  - exfalso. apply (Habs v). apply elem_of_cons. now left.
  - apply IH. intros v' Hv'. apply (Habs v'). apply elem_of_cons. now right.
Qed.

(** X4. When the collaborator's answer decodes to a dictionary, a missing
    key is not an error: without the key target_column the column is
    AETERM, and without the key filter_value the filter value is the
    empty text. *)
Theorem X4_missing_keys_default py_repr (self : agent) (question : string)
    (invoke : string -> result string) (content : string)
    (members : list (string * Json.json)) :
  use_llm self = true -> llm self = Some invoke ->
  invoke (_prompt self question) = Ok content ->
  decode_payload (Text.strip content) = Ok (Json.JObj members) ->
  exists r,
    parse_question py_repr self question = Ok r
    /\ ((forall v, ("target_column", v) ∉ members) -> target_column r = "AETERM")
    /\ ((forall v, ("filter_value", v) ∉ members) -> filter_value r = "").
Proof.
  intros Hu Hl Hc Hd.
  rewrite (parse_question_collaborator _ _ _ _ _ Hu Hl Hc), Hd.
  eexists. split; [reflexivity|]. cbn [target_column filter_value]. split.
  - intros Habs. now rewrite dict_get_absent.
  - intros Habs. now rewrite dict_get_absent.
Qed.

Lemma X4_witness :
  exists r,
    parse_question repr_unused (scripted_agent "Here: {}") "Which subjects had Headache?"
    = Ok r
    /\ ((forall v : Json.json, ("target_column", v) ∉ @nil (string * Json.json)) ->
        target_column r = "AETERM")
    /\ ((forall v : Json.json, ("filter_value", v) ∉ @nil (string * Json.json)) ->
        filter_value r = "").
Proof.
  exact (X4_missing_keys_default repr_unused (scripted_agent "Here: {}")
           "Which subjects had Headache?" (fun _ => Ok "Here: {}") "Here: {}" []
           eq_refl eq_refl eq_refl ltac:(vm_compute; reflexivity)).
Defined.

(** X5. An answer of the collaborator that decodes to something else
    than a dictionary (a list, a text, a number, true, false or null)
    makes [parse_question] raise [AttributeError]: the value has no
    method [get]. *)
Theorem X5_non_dictionary_answer_raises py_repr (self : agent) (question : string)
    (invoke : string -> result string) (content : string) (obj : Json.json) :
  use_llm self = true -> llm self = Some invoke ->
  invoke (_prompt self question) = Ok content ->
  decode_payload (Text.strip content) = Ok obj ->
  (forall members, obj <> Json.JObj members) ->
  parse_question py_repr self question = Raise AttributeError.
Proof.
  intros Hu Hl Hc Hd Hobj.
  rewrite (parse_question_collaborator _ _ _ _ _ Hu Hl Hc), Hd.
  destruct obj; try reflexivity. now destruct (Hobj members).
Qed.

Lemma X5_witness :
  parse_question repr_unused (scripted_agent "[1, 2]") "Which subjects had Headache?"
  = Raise AttributeError.
Proof.
  apply (X5_non_dictionary_answer_raises repr_unused (scripted_agent "[1, 2]")
           "Which subjects had Headache?" (fun _ => Ok "[1, 2]") "[1, 2]"
           (Json.JArr [Json.JInt 1; Json.JInt 2])).
  - reflexivity.
  - reflexivity.
  - reflexivity.
  - vm_compute. reflexivity.
  - intros members. discriminate.
Defined.

(** *** Text around the dictionary *)

Module ProseFacts.

Import Text TextFacts BraceFacts StripFacts.

Lemma space_not_lbrace (c : ascii) : is_space c = true -> Ascii.eqb c lbrace = false.
Proof. ascii_cases c; vm_compute; congruence. Qed.

Lemma space_not_rbrace (c : ascii) : is_space c = true -> Ascii.eqb c rbrace = false.
Proof. ascii_cases c; vm_compute; congruence. Qed.

Lemma search_braces_lstrip (s : string) : search_braces (lstrip s) = search_braces s.
Proof.
  induction s as [|c t IH]; [reflexivity|]. cbn [lstrip].
  destruct (is_space c) eqn:Hc; [|reflexivity].
  cbn [search_braces]. now rewrite (space_not_lbrace _ Hc).
Qed.

Lemma upto_last_rbrace_rstrip (s : string) :
  upto_last_rbrace (rstrip s) = upto_last_rbrace s.
Proof.
  induction s as [|c t IH]; [reflexivity|].
  rewrite rstrip_cons. cbn [upto_last_rbrace]. rewrite <- IH.
  destruct (rstrip t) as [|d r]; [|reflexivity].
  cbn [upto_last_rbrace]. destruct (is_space c) eqn:Hc; [|reflexivity].
  now rewrite (space_not_rbrace _ Hc).
Qed.

Lemma search_braces_rstrip (s : string) : search_braces (rstrip s) = search_braces s.
Proof.
  induction s as [|c t IH]; [reflexivity|].
  rewrite rstrip_cons. cbn [search_braces].
  rewrite <- IH, <- (upto_last_rbrace_rstrip t).
  destruct (rstrip t) as [|d r]; [|reflexivity].
  cbn [upto_last_rbrace search_braces].
  destruct (is_space c) eqn:Hc.
  - now rewrite (space_not_lbrace _ Hc).
  - cbn [search_braces upto_last_rbrace]. now destruct (Ascii.eqb c lbrace).
Qed.

(** Trimming the answer does not change what the brace search finds. *)
Lemma search_braces_strip (s : string) : search_braces (strip s) = search_braces s.
Proof. unfold strip. now rewrite search_braces_rstrip, search_braces_lstrip. Qed.

Lemma upto_last_rbrace_app_keep (a b p : string) :
  upto_last_rbrace b = Some p -> upto_last_rbrace (a ++ b) = Some (a ++ p).
Proof.
  intros Hb. induction a as [|c a IH]; [exact Hb|].
  change (String c a ++ b) with (String c (a ++ b)).
  cbn [upto_last_rbrace]. now rewrite IH.
Qed.

Lemma upto_last_rbrace_closing (post : string) :
  all_chars (fun c => negb (Ascii.eqb c rbrace)) post = true ->
  upto_last_rbrace ("}" ++ post) = Some "}".
Proof.
  intros Hpost. apply upto_last_rbrace_none in Hpost.
  change ("}" ++ post) with (String rbrace post).
  cbn [upto_last_rbrace]. now rewrite Hpost.
Qed.

Lemma search_braces_skip (pre s : string) :
  all_chars (fun c => negb (Ascii.eqb c lbrace)) pre = true ->
  search_braces (pre ++ s) = search_braces s.
Proof.
  induction pre as [|c pre IH]; [reflexivity|]. cbn [all_chars].
  intros [Hc Hpre]%andb_true_iff. apply negb_true_iff in Hc.
  change (String c pre ++ s) with (String c (pre ++ s)).
  cbn [search_braces]. rewrite Hc. now apply IH.
Qed.

(** A dumped pair is found again between two texts, when the first has no
    opening brace and the second no closing brace. *)
Lemma search_braces_in_prose (pre post k1 v1 k2 v2 : string) :
  all_chars (fun c => negb (Ascii.eqb c lbrace)) pre = true ->
  all_chars (fun c => negb (Ascii.eqb c rbrace)) post = true ->
  search_braces (pre ++ Json.dumps_pair k1 v1 k2 v2 ++ post)
  = Some (Json.dumps_pair k1 v1 k2 v2).
Proof.
  intros Hpre Hpost. rewrite (search_braces_skip _ _ Hpre).
  unfold Json.dumps_pair. rewrite !app_assoc_s.
  change ("{" ++ ?x) with (String lbrace x).
  cbn [search_braces]. change (Ascii.eqb lbrace lbrace) with true. cbv iota.
  erewrite upto_last_rbrace_app_keep; [reflexivity|].
  repeat apply upto_last_rbrace_app_keep.
  now apply upto_last_rbrace_closing.
Qed.

End ProseFacts.

(** X6. Text around the dictionary does not matter.  When the
    collaborator's reply is a dumped pair of the two keys, preceded by a
    text without opening brace and followed by a text without closing
    brace (whitespace, a sentence, a code fence), [parse_question] returns
    the column of the pair after the two repairs, and its value
    trimmed. *)
Theorem X6_prose_around_answer_ignored py_repr (self : agent) (question : string)
    (invoke : string -> result string) (pre post col val : string) :
  use_llm self = true -> llm self = Some invoke ->
  invoke (_prompt self question)
    = Ok (pre ++ Json.dumps_pair "target_column" col "filter_value" val ++ post) ->
  Text.all_chars (fun c => negb (Ascii.eqb c Text.lbrace)) pre = true ->
  Text.all_chars (fun c => negb (Ascii.eqb c Text.rbrace)) post = true ->
  parse_question py_repr self question
  = Ok (mk_query (validate_column question (Text.strip col)) (Text.strip val)).
Proof.
  intros Hu Hl Hc Hpre Hpost.
  rewrite (parse_question_collaborator _ _ _ _ _ Hu Hl Hc).
  unfold decode_payload, payload.
  rewrite ProseFacts.search_braces_strip,
    (ProseFacts.search_braces_in_prose _ _ _ _ _ _ Hpre Hpost),
    JsonFacts.loads_dumps_pair.
  reflexivity.
Qed.

Lemma X6_witness :
  let reply := "Sure, here it is: "
               ++ Json.dumps_pair "target_column" " AESEV " "filter_value" "severe "
               ++ " I hope this helps." in
  parse_question repr_unused (scripted_agent reply) "Who had severe events?"
  = Ok (mk_query "AESEV" "severe").
Proof.
  exact (X6_prose_around_answer_ignored repr_unused
           (scripted_agent ("Sure, here it is: "
               ++ Json.dumps_pair "target_column" " AESEV " "filter_value" "severe "
               ++ " I hope this helps."))
           "Who had severe events?"
           (fun _ => Ok ("Sure, here it is: "
               ++ Json.dumps_pair "target_column" " AESEV " "filter_value" "severe "
               ++ " I hope this helps."))
           "Sure, here it is: " " I hope this helps." " AESEV " "severe "
           eq_refl eq_refl eq_refl eq_refl eq_refl).
Defined.

(** ** The executor *)

Lemma unique_from_sublist (seen l : list string) :
  Pandas.unique_from seen l `sublist_of` l.
Proof.
  revert seen. induction l as [|x l IH]; intros seen; cbn [Pandas.unique_from].
  - constructor.
  - destruct (str_in x seen); [apply sublist_cons|apply sublist_skip]; apply IH.
Qed.

Lemma loc_sublist {A} (mask : list bool) (s : list A) : Pandas.loc mask s `sublist_of` s.
Proof.
  revert s. induction mask as [|b mask IH]; intros [|x s]; cbn [Pandas.loc];
    try apply sublist_nil_l.
  destruct b; [apply sublist_skip|apply sublist_cons]; apply IH.
Qed.

Lemma dropna_sublist (l1 l2 : list cell) :
  l1 `sublist_of` l2 -> Pandas.dropna l1 `sublist_of` Pandas.dropna l2.
Proof.
  unfold Pandas.dropna. induction 1 as [|x l1 l2 _ IH|x l1 l2 _ IH]; [constructor| |].
  - rewrite !filter_cons. destruct (decide _); [apply sublist_skip|]; exact IH.
  - rewrite filter_cons. destruct (decide _); [apply sublist_cons|]; exact IH.
Qed.

(** X7. The identifiers [execute] returns come in the order of the rows:
    the list is obtained from the column of identifiers, missing values
    dropped, by deleting entries.  The count is therefore at most the
    number of rows of the frame. *)
Theorem X7_identifiers_in_row_order (frame : DataFrame)
    (target_column filter_value : string) (count : nat) (subject_ids : list string) :
  execute frame target_column filter_value = Ok (count, subject_ids) ->
  subject_ids `sublist_of` Pandas.astype_str (Pandas.dropna (map USUBJID frame))
  /\ count <= length frame.
Proof.
  unfold execute, mbind, result_bind.
  destruct (Pandas.getitem frame target_column) as [column|e]; [|discriminate].
  rewrite getitem_usubjid. cbv beta iota zeta. intros H.
  injection H as Hcount Hids. subst.
  assert (Hsub : Pandas.unique (Pandas.astype_str (Pandas.dropna
                   (Pandas.loc (selection_mask column filter_value) (map USUBJID frame))))
                 `sublist_of` Pandas.astype_str (Pandas.dropna (map USUBJID frame))).
  { etransitivity; [apply unique_from_sublist|].
    unfold Pandas.astype_str, Pandas.dropna.
    apply fmap_sublist, dropna_sublist, loc_sublist. }
  split; [exact Hsub|].
  apply sublist_length in Hsub. etransitivity; [exact Hsub|].
  unfold Pandas.astype_str, Pandas.dropna.
  rewrite length_fmap. etransitivity; [apply length_filter|]. now rewrite length_map.
Qed.

Lemma X7_witness :
  ["S1"; "S2"; "S3"; "S4"]
    `sublist_of` Pandas.astype_str (Pandas.dropna (map USUBJID ae_sample))
  /\ 4 <= length ae_sample.
Proof.
  exact (X7_identifiers_in_row_order ae_sample "AESOC" "disorders" 4
           ["S1"; "S2"; "S3"; "S4"] ltac:(vm_compute; reflexivity)).
Defined.











(** ** The matcher *)

Lemma find_first_longest (p : string -> bool) (vals : list string) (w : string) :
  StronglySorted longer_first vals ->
  List.find p vals = Some w ->
  w ∈ vals /\ p w = true
  /\ forall v, v ∈ vals -> p v = true -> String.length v <= String.length w.
Proof.
  induction vals as [|x vals IH]; intros Hs Hfind; [discriminate|].
  apply StronglySorted_cons in Hs as [Hx Hs]. cbn [List.find] in Hfind.
  destruct (p x) eqn:Hp.
  - injection Hfind as <-. split; [apply elem_of_cons; now left|]. split; [exact Hp|].
    intros v [->|Hv]%elem_of_cons _; [lia|].
    rewrite Forall_forall in Hx. exact (Hx v Hv).
  - destruct (IH Hs Hfind) as (Hin & Hw & Hmax).
    split; [apply elem_of_cons; now right|]. split; [exact Hw|].
    intros v [->|Hv]%elem_of_cons Hpv; [congruence|now apply Hmax].
Qed.

Lemma candidate_is_value (col_values : list cell) (v : string) :
  v ∈ candidate_values col_values -> Txt v ∈ col_values.
Proof.
  unfold candidate_values. intros Hv%subseteq_take.
  rewrite sorted_by_len_desc_perm, unique_elem_of in Hv. now apply elem_of_texts.
Qed.

(** The value extracted when some candidate other than the empty text
    occurs in the question. *)
Lemma extract_value_longest (col_values : list cell) (question v : string) :
  v ∈ candidate_values col_values ->
  v <> "" ->
  Text.contains (Text.lower v) (Text.lower question) = true ->
  let w := extract_value (candidate_values col_values) question in
  w ∈ candidate_values col_values
  /\ w <> ""
  /\ Text.contains (Text.lower w) (Text.lower question) = true
  /\ forall v', v' ∈ candidate_values col_values -> v' <> "" ->
       Text.contains (Text.lower v') (Text.lower question) = true ->
       String.length v' <= String.length w.
Proof.
  intros Hv Hne Hc. cbv zeta.
  set (p := fun v => negb (String.eqb v "")
                     && Text.contains (Text.lower v) (Text.lower question)).
  assert (Hpv : forall u, u <> "" ->
            Text.contains (Text.lower u) (Text.lower question) = true -> p u = true).
  { intros u Hu Hcu. unfold p. rewrite Hcu. now destruct (String.eqb_spec u ""). }
  assert (Hex : extract_value (candidate_values col_values) question
                = match List.find p (candidate_values col_values) with
                  | Some w => w
                  | None =>
                      match Text.search_quoted question with
                      | Some g => g
                      | None => Text.join " "
                                  (Text.last_n 3 (Text.findall Text.is_ascii_alnum question))
                      end
                  end).
  { unfold extract_value.
    apply (find_skips_empty
             (fun v => Text.contains (Text.lower v) (Text.lower question))).
    apply candidate_values_sorted. }
  rewrite Hex. destruct (List.find p (candidate_values col_values)) as [w|] eqn:Hfind.
  - destruct (find_first_longest p _ w (candidate_values_sorted col_values) Hfind)
      as (Hin & Hw & Hmax).
    unfold p in Hw. apply andb_true_iff in Hw as [Hw1 Hw2].
    split; [exact Hin|]. split; [|split; [exact Hw2|]].
    + intros ->. discriminate.
    + intros v' Hv' Hne' Hc'. apply Hmax; auto.
  - exfalso. assert (Hin : In v (candidate_values col_values)) by now apply list_elem_of_In.
    pose proof (find_none _ _ Hfind v Hin) as Hfalse.
    rewrite (Hpv v Hne Hc) in Hfalse. discriminate.
Qed.

(** X11. The longest candidate wins.  When some candidate that is not
    the empty text occurs in the question up to case, the answer of
    [_mock_llm] carries a filter value that is a text of the selected
    column, occurs in the question up to case, and is at least as long
    as every candidate that does. *)
Theorem X11_longest_matching_value_chosen (self : agent) (question v : string)
    (col_values : list cell) :
  Pandas.getitem (df self) (select_column question) = Ok col_values ->
  v ∈ candidate_values col_values ->
  v <> "" ->
  Text.contains (Text.lower v) (Text.lower question) = true ->
  exists w,
    _mock_llm self question =
      Ok (Json.dumps_pair "target_column" (select_column question) "filter_value" w)
    /\ Txt w ∈ col_values
    /\ w <> ""
    /\ Text.contains (Text.lower w) (Text.lower question) = true
    /\ forall v', v' ∈ candidate_values col_values -> v' <> "" ->
         Text.contains (Text.lower v') (Text.lower question) = true ->
         String.length v' <= String.length w.
Proof.
  intros Hget Hv Hne Hc.
  destruct (extract_value_longest col_values question v Hv Hne Hc)
    as (Hin & Hw & Hcw & Hmax).
  exists (extract_value (candidate_values col_values) question).
  split; [|split; [now apply candidate_is_value|auto]].
  unfold _mock_llm. rewrite Hget. reflexivity.
Qed.

Ltac compute_list t := let l := eval vm_compute in t in change t with l.

Lemma X11_witness :
  exists w,
    _mock_llm fallback_agent "How many subjects have eye disorders?" =
      Ok (Json.dumps_pair "target_column"
            (select_column "How many subjects have eye disorders?") "filter_value" w)
    /\ Txt w ∈ map AESOC ae_sample
    /\ w <> ""
    /\ Text.contains (Text.lower w)
         (Text.lower "How many subjects have eye disorders?") = true
    /\ forall v', v' ∈ candidate_values (map AESOC ae_sample) -> v' <> "" ->
         Text.contains (Text.lower v')
           (Text.lower "How many subjects have eye disorders?") = true ->
         String.length v' <= String.length w.
Proof.
  apply (X11_longest_matching_value_chosen fallback_agent
           "How many subjects have eye disorders?" "Eye disorders" (map AESOC ae_sample)).
  - vm_compute. reflexivity.
  - compute_list (candidate_values (map AESOC ae_sample)).
    rewrite !elem_of_cons. auto.
  - discriminate.
  - vm_compute. reflexivity.
Defined.

(** The two fallbacks of the value extraction, when no candidate other
    than the empty text occurs in the question. *)
Lemma extract_value_no_candidate (vals : list string) (question : string) :
  (forall v, v ∈ vals -> v <> "" ->
     Text.contains (Text.lower v) (Text.lower question) = false) ->
  extract_value vals question =
  match Text.search_quoted question with
  | Some g => g
  | None => Text.join " " (Text.last_n 3 (Text.findall Text.is_ascii_alnum question))
  end.
Proof.
  intros Hno. unfold extract_value.
  destruct (List.find _ vals) as [v|] eqn:Hfind; cbn [from_option id]; [|reflexivity].
  apply find_some in Hfind as [Hin%list_elem_of_In Hv].
  destruct (String.eqb_spec v "") as [_|Hne]; [reflexivity|].
  rewrite (Hno v Hin Hne) in Hv. discriminate.
Qed.

Module QuoteFacts.

Import Text TextFacts.

Lemma span_unquoted_spec (s run rest : string) :
  span_unquoted s = (run, rest) ->
  s = run ++ rest
  /\ all_chars (fun c => negb (Ascii.eqb c dquote)) run = true
  /\ (rest = "" \/ exists rest', rest = String dquote rest').
Proof.
  revert run rest. induction s as [|c s IH]; intros run rest; cbn [span_unquoted].
  - intros [= <- <-]. auto.
  - destruct (Ascii.eqb_spec c dquote) as [->|Hc].
    + intros [= <- <-]. repeat split. right. eauto.
    + destruct (span_unquoted s) as [run' rest']. intros [= <- <-].
      destruct (IH _ _ eq_refl) as (-> & Hrun & Hrest).
      split; [reflexivity|]. split; [|exact Hrest].
      cbn [all_chars]. rewrite Hrun. apply Ascii.eqb_neq in Hc. now rewrite Hc.
Qed.

(** What the search for a quoted run returns stands between two quotes
    of the question, is not empty and holds no quote. *)
Lemma search_quoted_spec (s g : string) :
  search_quoted s = Some g ->
  g <> ""
  /\ all_chars (fun c => negb (Ascii.eqb c dquote)) g = true
  /\ exists pre post, s = pre ++ String dquote (g ++ String dquote post).
Proof.
  induction s as [|c s IH]; cbn [search_quoted]; [discriminate|].
  assert (Htail : search_quoted s = Some g ->
            g <> "" /\ all_chars (fun c => negb (Ascii.eqb c dquote)) g = true
            /\ exists pre post, String c s = pre ++ String dquote (g ++ String dquote post)).
  { intros H. destruct (IH H) as (Hne & Hall & pre & post & ->).
    split; [exact Hne|]. split; [exact Hall|]. now exists (String c pre), post. }
  destruct (Ascii.eqb_spec c dquote) as [->|_]; [|exact Htail].
  destruct (span_unquoted s) as [run rest] eqn:Hspan.
  destruct run as [|a run]; [exact Htail|].
  destruct rest as [|d rest]; [exact Htail|].
  intros [= <-]. destruct (span_unquoted_spec _ _ _ Hspan) as (-> & Hall & [Hr|[rest' Hr]]);
    [discriminate|]. injection Hr as -> ->.
  split; [discriminate|]. split; [exact Hall|]. now exists "", rest'.
Qed.

End QuoteFacts.

(** X12. The quoted fallback.  When no candidate other than the empty
    text occurs in the question and the question holds a double-quoted
    run, the value extracted is a text that stands between two double
    quotes of the question, is not empty and holds no double quote. *)
Theorem X12_quoted_run_extracted (vals : list string) (question g : string) :
  (forall v, v ∈ vals -> v <> "" ->
     Text.contains (Text.lower v) (Text.lower question) = false) ->
  Text.search_quoted question = Some g ->
  extract_value vals question = g
  /\ g <> ""
  /\ Text.all_chars (fun c => negb (Ascii.eqb c Text.dquote)) g = true
  /\ exists pre post, question = pre ++ String Text.dquote (g ++ String Text.dquote post).
Proof.
  intros Hno Hq. split.
  - now rewrite (extract_value_no_candidate _ _ Hno), Hq.
  - now apply QuoteFacts.search_quoted_spec.
Qed.

Lemma X12_witness :
  let question := "Who reported " ++ String Text.dquote ("Dry eye" ++ String Text.dquote "?") in
  extract_value (candidate_values (map AETERM ae_sample)) question = "Dry eye"
  /\ "Dry eye" <> ""
  /\ Text.all_chars (fun c => negb (Ascii.eqb c Text.dquote)) "Dry eye" = true
  /\ exists pre post,
       question = pre ++ String Text.dquote ("Dry eye" ++ String Text.dquote post).
Proof.
  apply (X12_quoted_run_extracted (candidate_values (map AETERM ae_sample))
           ("Who reported " ++ String Text.dquote ("Dry eye" ++ String Text.dquote "?"))
           "Dry eye").
  - intros v. compute_list (candidate_values (map AETERM ae_sample)).
    rewrite !elem_of_cons, elem_of_nil.
    intros [->|[->|[->|[]]]] _; reflexivity.
  - reflexivity.
Defined.

Module TokenFacts.

Import Text TextFacts.

(** The runs found are not empty and made of characters of the class. *)
Lemma findall_runs (p : ascii -> bool) (s t : string) :
  t ∈ findall p s -> t <> "" /\ all_chars p t = true.
Proof.
  revert t. induction s as [|c s IH]; intros t; cbn [findall].
  - now intros ?%elem_of_nil.
  - destruct (p c) eqn:Hc; [|apply IH].
    destruct s as [|d s'].
    + intros ->%list_elem_of_singleton. split; [discriminate|]. cbn. now rewrite Hc.
    + destruct (p d) eqn:Hd.
      * destruct (findall p (String d s')) as [|run runs] eqn:Hf.
        -- intros ->%list_elem_of_singleton. split; [discriminate|]. cbn. now rewrite Hc.
        -- intros [->|Ht]%elem_of_cons.
           ++ split; [discriminate|]. cbn [all_chars]. rewrite Hc.
              apply (IH run). apply elem_of_cons. now left.
           ++ apply IH. apply elem_of_cons. now right.
      * intros [->|Ht]%elem_of_cons; [|now apply IH].
        split; [discriminate|]. cbn. now rewrite Hc.
Qed.

Lemma join_chars (p : ascii -> bool) (l : list string) :
  (forall t, t ∈ l -> all_chars p t = true) ->
  all_chars (fun c => p c || Ascii.eqb c " ") (join " " l) = true.
Proof.
  assert (Hweak : forall t, all_chars p t = true ->
            all_chars (fun c => p c || Ascii.eqb c " ") t = true).
  { intros t. apply all_chars_impl. intros c ->. reflexivity. }
  induction l as [|x l IH]; intros Hl; [reflexivity|].
  assert (Hx : all_chars p x = true) by (apply Hl, elem_of_cons; now left).
  assert (Hl' : forall t, t ∈ l -> all_chars p t = true)
    by (intros t Ht; apply Hl, elem_of_cons; now right).
  destruct l as [|y l]; [now apply Hweak|].
  change (join " " (x :: y :: l)) with (x ++ " " ++ join " " (y :: l)).
  rewrite !all_chars_app, (Hweak x Hx), (IH Hl'). cbn. now rewrite orb_true_r.
Qed.

Lemma join_empty (l : list string) :
  (forall t, t ∈ l -> t <> "") -> join " " l = "" -> l = [].
Proof.
  destruct l as [|x l]; [reflexivity|]. intros Hne Hj. exfalso.
  assert (Hx : x <> "") by (apply Hne, elem_of_cons; now left).
  destruct l as [|y l]; [now cbn in Hj|].
  change (join " " (x :: y :: l)) with (x ++ " " ++ join " " (y :: l)) in Hj.
  destruct x; [congruence|discriminate].
Qed.

End TokenFacts.

(** X13. The last fallback.  When no candidate other than the empty
    text occurs in the question and the question holds no double-quoted
    run, the value extracted is made of at most three of the last
    alphanumeric tokens of the question, separated by single spaces: it
    holds nothing but ASCII letters, digits and spaces, and it is empty
    only when the question has no token at all. *)
Theorem X13_last_tokens_extracted (vals : list string) (question : string) :
  (forall v, v ∈ vals -> v <> "" ->
     Text.contains (Text.lower v) (Text.lower question) = false) ->
  Text.search_quoted question = None ->
  exists tokens,
    extract_value vals question = Text.join " " tokens
    /\ length tokens <= 3
    /\ tokens `suffix_of` Text.findall Text.is_ascii_alnum question
    /\ Text.all_chars (fun c => Text.is_ascii_alnum c || Ascii.eqb c " ")
         (extract_value vals question) = true
    /\ (extract_value vals question = "" ->
        Text.findall Text.is_ascii_alnum question = []).
Proof.
  intros Hno Hq. rewrite (extract_value_no_candidate _ _ Hno), Hq.
  set (all := Text.findall Text.is_ascii_alnum question).
  assert (Hsuf : Text.last_n 3 all `suffix_of` all) by apply suffix_drop.
  assert (Hruns : forall t, t ∈ Text.last_n 3 all ->
            t <> "" /\ Text.all_chars Text.is_ascii_alnum t = true).
  { intros t Ht. apply (TokenFacts.findall_runs _ question).
    destruct Hsuf as [k Hk]. fold all. rewrite Hk. apply elem_of_app. now right. }
  exists (Text.last_n 3 all). split; [reflexivity|]. split.
  - unfold Text.last_n. rewrite length_drop. lia.
  - split; [exact Hsuf|]. split.
    + apply TokenFacts.join_chars. intros t Ht. now apply Hruns.
    + intros Hj. apply TokenFacts.join_empty in Hj; [|intros t Ht; now apply Hruns].
      unfold Text.last_n in Hj. apply (f_equal length) in Hj.
      rewrite length_drop in Hj. cbn in Hj.
      destruct all as [|a [|b [|c l]]]; cbn in Hj; try lia. reflexivity.
Qed.

Lemma X13_witness :
  exists tokens,
    extract_value (candidate_values (map AETERM ae_sample))
      "Which subjects had a dry-eye event?" = Text.join " " tokens
    /\ length tokens <= 3
    /\ tokens `suffix_of`
         Text.findall Text.is_ascii_alnum "Which subjects had a dry-eye event?"
    /\ Text.all_chars (fun c => Text.is_ascii_alnum c || Ascii.eqb c " ")
         (extract_value (candidate_values (map AETERM ae_sample))
            "Which subjects had a dry-eye event?") = true
    /\ (extract_value (candidate_values (map AETERM ae_sample))
          "Which subjects had a dry-eye event?" = "" ->
        Text.findall Text.is_ascii_alnum "Which subjects had a dry-eye event?" = []).
Proof.
  apply (X13_last_tokens_extracted (candidate_values (map AETERM ae_sample))
           "Which subjects had a dry-eye event?").
  - intros v. compute_list (candidate_values (map AETERM ae_sample)).
    rewrite !elem_of_cons, elem_of_nil.
    intros [->|[->|[->|[]]]] _; reflexivity.
  - reflexivity.
Defined.

(** ** The word search of line 70 *)

Module BoundaryFacts.

Import Text TextFacts.

Lemma match_literal_ci_lower (p w post : string) :
  lower w = lower p -> match_literal_ci p (w ++ post) = Some post.
Proof.
  revert w. induction p as [|a p IH]; intros w Hw.
  - destruct w; [reflexivity|discriminate].
  - destruct w as [|b w]; [discriminate|]. cbn [lower] in Hw. injection Hw as Hb Hw.
    change (String b w ++ post) with (String b (w ++ post)).
    cbn [match_literal_ci]. rewrite Hb, Ascii.eqb_refl. now apply IH.
Qed.

Lemma search_at_boundary (prev : bool) (pre s : string) :
  boundary_after prev pre = true -> subject_id_here s = true ->
  search_subject_id prev (pre ++ s) = true.
Proof.
  revert prev. induction pre as [|c pre IH]; intros prev Hb Hs.
  - change ("" ++ s) with s. cbn [boundary_after] in Hb.
    destruct s; cbn [search_subject_id]; now rewrite Hb, Hs.
  - change (String c pre ++ s) with (String c (pre ++ s)).
    cbn [search_subject_id]. rewrite (IH _ Hb Hs). apply orb_true_r.
Qed.

End BoundaryFacts.

(** X14. The identifier column is kept when the question asks for it.
    When the question holds usubjid or subject id, in any case, as a
    word (not preceded and not followed by a word character), the word
    search succeeds and the repair of line 70 leaves USUBJID as it
    is. *)
Theorem X14_subject_id_as_a_word_keeps_identifier (pre w post : string) :
  Text.lower w = "usubjid" \/ Text.lower w = "subject id" ->
  boundary_after false pre = true ->
  Text.at_word_end post = true ->
  Text.mentions_subject_id (pre ++ w ++ post) = true
  /\ validate_column (pre ++ w ++ post) "USUBJID" = "USUBJID".
Proof.
  intros Hw Hpre Hpost.
  assert (Hm : Text.mentions_subject_id (pre ++ w ++ post) = true).
  { apply BoundaryFacts.search_at_boundary; [exact Hpre|].
    unfold Text.subject_id_here, Text.literal_then_boundary.
    destruct Hw as [Hw|Hw].
    - rewrite (BoundaryFacts.match_literal_ci_lower "usubjid" w post Hw), Hpost.
      reflexivity.
    - rewrite (BoundaryFacts.match_literal_ci_lower "subject id" w post Hw), Hpost.
      apply orb_true_r. }
  split; [exact Hm|]. unfold validate_column. now rewrite Hm.
Qed.

Lemma X14_witness :
  Text.mentions_subject_id ("Show (" ++ "Subject ID" ++ ") 1015") = true
  /\ validate_column ("Show (" ++ "Subject ID" ++ ") 1015") "USUBJID" = "USUBJID".
Proof.
  exact (X14_subject_id_as_a_word_keeps_identifier "Show (" "Subject ID" ") 1015"
           (or_intror eq_refl) eq_refl eq_refl).
Defined.

(** ** The prompt *)

Module PromptFacts.

Import Text TextFacts StripFacts.

Lemma app_empty_r (s : string) : s ++ "" = s.
Proof. induction s as [|c s IH]; [reflexivity|]. cbn. now rewrite IH. Qed.

Lemma rstrip_app_nonempty (x y : string) :
  rstrip y <> "" -> rstrip (x ++ y) = x ++ rstrip y.
Proof.
  intros Hy. induction x as [|c x IH]; [reflexivity|].
  change (String c x ++ y) with (String c (x ++ y)).
  change (String c x ++ rstrip y) with (String c (x ++ rstrip y)).
  rewrite rstrip_cons, IH.
  destruct (x ++ rstrip y) eqn:E; [|reflexivity].
  destruct x; [|discriminate]. now destruct Hy.
Qed.

Lemma rstrip_app_keep (a b : string) :
  rstrip a = a -> a <> "" -> rstrip (a ++ b) = a ++ rstrip b.
Proof.
  induction a as [|c t IH]; [congruence|]. intros Ha _.
  change (String c t ++ b) with (String c (t ++ b)).
  rewrite rstrip_cons in Ha. rewrite rstrip_cons.
  destruct t as [|d t'].
  - cbn [rstrip] in Ha. destruct (is_space c); [discriminate|].
    change ("" ++ b) with b. now destruct (rstrip b).
  - destruct (rstrip (String d t')) as [|e r] eqn:Ht.
    + destruct (is_space c); discriminate.
    + injection Ha as Ha. rewrite IH by (rewrite ?Ha; congruence).
      reflexivity.
Qed.

Lemma rstrip_spaces (w : string) : all_chars is_space w = true -> rstrip w = "".
Proof. intros Hw. exact (rstrip_app_spaces "" w Hw). Qed.

(** The two trims of [_prompt] only touch the newline before the first
    line and the end of the question. *)
Lemma prompt_shape (self : agent) (question : string) :
  _prompt self question = prompt_head (schema_text self) ++ rstrip (nl ++ question).
Proof.
  assert (Hbody : _prompt self question
                  = rstrip (prompt_rules (schema_text self)
                            ++ "Question:" ++ (nl ++ question) ++ nl)).
  { unfold _prompt, strip, prompt_rules. rewrite !app_assoc_s. reflexivity. }
  rewrite Hbody. unfold prompt_head.
  rewrite rstrip_app_nonempty by (now apply rstrip_nonempty).
  rewrite (rstrip_app_keep "Question:") by (reflexivity || discriminate).
  rewrite rstrip_app_spaces by reflexivity.
  now rewrite app_assoc_s.
Qed.

End PromptFacts.

(** X15. The prompt is the fixed text of the rules and the schema, the
    line that announces the question, and the question behind a newline
    with the whitespace at its end removed.  The trim of [_prompt]
    therefore never reaches the rules or the schema; whitespace added at
    the end of a question does not change the prompt; and for a question
    of whitespace only the prompt stops at the announcing line. *)
Theorem X15_prompt_trims_only_the_question (self : agent) (question : string) :
  _prompt self question
    = prompt_head (schema_text self) ++ Text.rstrip (nl ++ question)
  /\ (forall w, Text.all_chars Text.is_space w = true ->
        _prompt self (question ++ w) = _prompt self question)
  /\ (Text.strip question = "" -> _prompt self question = prompt_head (schema_text self)).
Proof.
  split; [apply PromptFacts.prompt_shape|]. split.
  - intros w Hw. rewrite !PromptFacts.prompt_shape. f_equal.
    rewrite <- TextFacts.app_assoc_s. now apply StripFacts.rstrip_app_spaces.
  - intros Hq%TextFacts.strip_empty_iff. rewrite PromptFacts.prompt_shape.
    rewrite PromptFacts.rstrip_spaces; [apply PromptFacts.app_empty_r|].
    rewrite TextFacts.all_chars_app. now rewrite Hq.
Qed.

(** ** A question that names a value of the data *)



